(** * Sensor gateway (main.go): a shallow embedding and its verified properties

    The gateway translates HTTP requests for sensor readings into writes and
    Flux queries against a time-series store.  The embedding follows main.go:

    - strings are [string], Go [int]/[int64] values are [Z] with the 64-bit
      range written out, [float64] is the kernel's binary64 [float];
    - [time.Time] is the pair (seconds since January 1 of year 1, nanoseconds)
      that [IsZero] and [Unix] inspect;
    - [interface{}] values read from a store row are the tagged union [Value],
      and a failed type assertion is a panic;
    - the external collaborators (clock, write API, query API, health probe,
      logger) are calls of a small free monad [Handler], interpreted against
      any [World]. *)

From Stdlib Require Import ZArith String Ascii List Lia DecimalString PrimFloat.
From Stdlib Require DecimalPos DecimalZ.
From stdpp Require Import base option list gmap strings.

Local Open Scope Z_scope.

(** ** Text helpers: the characters Go writes inside raw string literals *)

Definition DQ : string := String "034"%char EmptyString.
Definition NL : string := String "010"%char EmptyString.
Definition TAB : string := String "009"%char EmptyString.

(** Indentation that starts every stage line of the raw literals:
    a newline followed by two tabs. *)
Definition LINE : string := NL +:+ TAB +:+ TAB.
(** What closes each raw literal: a newline and one tab. *)
Definition CLOSE : string := NL +:+ TAB.

(** ** Go integers *)

Definition minInt64 : Z := - 2 ^ 63.
Definition maxInt64 : Z := 2 ^ 63 - 1.

(** Two's complement wrap-around of 64-bit signed arithmetic. *)
Definition wrap64 (z : Z) : Z := (z + 2 ^ 63) mod 2 ^ 64 - 2 ^ 63.

(** The verb [%d] of fmt.Sprintf on an integer. *)
Definition fmt_d (z : Z) : string := NilZero.string_of_int (Z.to_int z).

(** *** strconv.Atoi

    An optional sign, then one or more decimal digits; the value has to fit
    the (64-bit) [int].  Anything else is an error, here [None]. *)

Definition digit_of (c : ascii) : option Z :=
  let n := Z.of_N (N_of_ascii c) in
  if (48 <=? n) && (n <=? 57) then Some (n - 48) else None.

Fixpoint digits_value (s : string) (acc : Z) : option Z :=
  match s with
  | EmptyString => Some acc
  | String c rest =>
      match digit_of c with
      | Some d => digits_value rest (acc * 10 + d)
      | None => None
      end
  end.

Definition is_sign (c : ascii) : bool :=
  (Ascii.eqb c "-"%char || Ascii.eqb c "+"%char)%bool.

Definition Atoi (s : string) : option Z :=
  match s with
  | EmptyString => None
  | String c rest =>
      let body := if is_sign c then rest else s in
      match body with
      | EmptyString => None
      | _ =>
          match digits_value body 0 with
          | None => None
          | Some n =>
              let v := if Ascii.eqb c "-"%char then - n else n in
              if (minInt64 <=? v) && (v <=? maxInt64) then Some v else None
          end
      end
  end.

(** ** time.Time *)

Record Time : Type := mkTime {
  sec : Z;    (* seconds since January 1, year 1 00:00:00 UTC *)
  nsec : Z    (* nanoseconds within the second *)
}.

Definition zeroTime : Time := mkTime 0 0.

Definition IsZero (t : Time) : bool := (sec t =? 0) && (nsec t =? 0).

Definition unixToInternal : Z :=
  (1969 * 365 + 1969 / 4 - 1969 / 100 + 1969 / 400) * 86400.

(** [t.Unix()]: seconds since January 1, 1970 UTC, an int64. *)
Definition Unix (t : Time) : Z := wrap64 (sec t - unixToInternal).

(** Total order used by the store when it sorts on [_time]. *)
Definition nanos (t : Time) : Z := sec t * 1000000000 + nsec t.

(** ** Data model *)

Record SensorData : Type := mkSensorData {
  ID : string;
  Timestamp : Time;
  Temperature : float;
  Humidity : float;
  Pressure : float;
  Altitude : float;
  Location : string
}.

Definition setID (d : SensorData) (v : string) : SensorData :=
  mkSensorData v (Timestamp d) (Temperature d) (Humidity d) (Pressure d)
    (Altitude d) (Location d).
Definition setTimestamp (d : SensorData) (v : Time) : SensorData :=
  mkSensorData (ID d) v (Temperature d) (Humidity d) (Pressure d)
    (Altitude d) (Location d).
Definition setTemperature (d : SensorData) (v : float) : SensorData :=
  mkSensorData (ID d) (Timestamp d) v (Humidity d) (Pressure d)
    (Altitude d) (Location d).
Definition setHumidity (d : SensorData) (v : float) : SensorData :=
  mkSensorData (ID d) (Timestamp d) (Temperature d) v (Pressure d)
    (Altitude d) (Location d).
Definition setPressure (d : SensorData) (v : float) : SensorData :=
  mkSensorData (ID d) (Timestamp d) (Temperature d) (Humidity d) v
    (Altitude d) (Location d).
Definition setAltitude (d : SensorData) (v : float) : SensorData :=
  mkSensorData (ID d) (Timestamp d) (Temperature d) (Humidity d) (Pressure d)
    v (Location d).

(** An [interface{}] value as the store client hands it out. *)
Inductive Value : Type :=
| VNil
| VString (s : string)
| VFloat (f : float)
| VInt (z : Z)
| VBool (b : bool)
| VTime (t : Time).

(** The payload of a response: [Data interface{}]. *)
Inductive Data : Type :=
| NoData
| DataReading (d : SensorData)
| DataReadings (ds : list SensorData)
| DataMap (m : gmap string Value).

Record Response : Type := mkResponse {
  Status : string;
  Message : string;
  Payload : Data
}.

(** What a handler leaves in the http.ResponseWriter. *)
Record HttpResponse : Type := mkHttp {
  contentType : string;
  statusCode : Z;
  body : Response
}.

Definition StatusOK : Z := 200.
Definition StatusCreated : Z := 201.
Definition StatusBadRequest : Z := 400.
Definition StatusNotFound : Z := 404.
Definition StatusInternalServerError : Z := 500.
Definition StatusNotImplemented : Z := 501.
Definition StatusServiceUnavailable : Z := 503.

(** ** The store client *)

Definition error : Type := string.

Inductive result (A : Type) : Type :=
| Ok (a : A)
| Err (e : error).
Arguments Ok {A} a.
Arguments Err {A} e.

(** A write point: measurement, tags and fields in the order they were
    added, and the explicit time. *)
Record Point : Type := mkPoint {
  measurement : string;
  tags : list (string * string);
  fields : list (string * Value);
  ptime : Time
}.

Definition NewPointWithMeasurement (m : string) : Point :=
  mkPoint m [] [] zeroTime.
Definition AddTag (k v : string) (p : Point) : Point :=
  mkPoint (measurement p) (tags p ++ [(k, v)]) (fields p) (ptime p).
Definition AddField (k : string) (v : Value) (p : Point) : Point :=
  mkPoint (measurement p) (tags p) (fields p ++ [(k, v)]) (ptime p).
Definition SetTime (t : Time) (p : Point) : Point :=
  mkPoint (measurement p) (tags p) (fields p) t.

(** A row of a query result: column name to value. *)
Definition FluxRecord : Type := gmap string Value.

(** [record.ValueByKey(key)]: the value, or nil when the column is absent. *)
Definition ValueByKey (r : FluxRecord) (key : string) : Value :=
  match r !! key with
  | Some v => v
  | None => VNil
  end.

(** [record.Time()]: the [_time] column when it holds a time, else the zero
    time. *)
Definition RecordTime (r : FluxRecord) : Time :=
  match r !! "_time" with
  | Some (VTime t) => t
  | _ => zeroTime
  end.

(** The iterator returned by a successful Query call: the rows [Next] steps
    through, and the error [Err] reports once [Next] has returned false. *)
Record QueryTableResult : Type := mkQueryResult {
  rows : list FluxRecord;
  iterErr : option error
}.

Record HealthCheck : Type := mkHealth {
  HStatus : string
}.

(** ** Handlers as programs over the external calls

    A handler is a tree: it returns, panics (a failed type assertion), or
    performs one call on a collaborator and continues with the answer. *)

Inductive Call : Type :=
| TimeNow
| WritePoint (p : Point)
| Query (query : string)
| Health
| LogPrintf (e : error).

(** What each call answers with. *)
Definition Answer (c : Call) : Type :=
  match c with
  | TimeNow => Time
  | WritePoint _ => option error
  | Query _ => result QueryTableResult
  | Health => result HealthCheck
  | LogPrintf _ => unit
  end.

Inductive Handler (A : Type) : Type :=
| Ret (a : A)
| Panic
| Vis (c : Call) (k : Answer c -> Handler A).
Arguments Ret {A} a.
Arguments Panic {A}.
Arguments Vis {A} c k.

Fixpoint hbind {A B : Type} (h : Handler A) (f : A -> Handler B) : Handler B :=
  match h with
  | Ret a => f a
  | Panic => Panic
  | Vis c k => Vis c (fun x => hbind (k x) f)
  end.

#[global] Instance Handler_ret : MRet Handler := fun _ a => Ret a.
#[global] Instance Handler_bind : MBind Handler := fun _ _ f h => hbind h f.

Definition call (c : Call) : Handler (Answer c) := Vis c Ret.

(** Method chaining, [p.AddTag(..).AddField(..)]. *)
Local Notation "x |> f" := (f x) (at level 45, left associativity, only parsing).

(** *** Interpretation

    A world answers every call and threads its own state. *)

Record World (S : Type) : Type := mkWorld {
  w_now : S -> Time * S;
  w_write : Point -> S -> option error * S;
  w_query : string -> S -> result QueryTableResult * S;
  w_health : S -> result HealthCheck * S;
  w_log : error -> S -> S
}.
Arguments w_now {S} _ _.
Arguments w_write {S} _ _ _.
Arguments w_query {S} _ _ _.
Arguments w_health {S} _ _.
Arguments w_log {S} _ _ _.

Definition answer {S : Type} (W : World S) (c : Call) : S -> Answer c * S :=
  match c return S -> Answer c * S with
  | TimeNow => w_now W
  | WritePoint p => w_write W p
  | Query q => w_query W q
  | Health => w_health W
  | LogPrintf e => fun s => (tt, w_log W e s)
  end.

(** [run W h s]: the response ([None] after a panic) and the final state. *)
Fixpoint run {S A : Type} (W : World S) (h : Handler A) (s : S) : option A * S :=
  match h with
  | Ret a => (Some a, s)
  | Panic => (None, s)
  | Vis c k => let '(x, s') := answer W c s in run W (k x) s'
  end.

(** ** Utility functions of main.go *)

Definition sendSuccessResponse (code : Z) (message : string) (data : Data)
  : Handler HttpResponse :=
  mret (mkHttp "application/json" code (mkResponse "success" message data)).

Definition sendErrorResponse (code : Z) (message : string) (err : option error)
  : Handler HttpResponse :=
  match err with
  | Some e => call (LogPrintf e)
  | None => mret tt
  end ;;
  mret (mkHttp "application/json" code (mkResponse "error" message NoData)).

(** ** The application *)

Record App : Type := mkApp {
  bucket : string;
  org : string
}.

(** The point both createSensorData and updateSensorData build. *)
Definition sensorPoint (data : SensorData) : Point :=
  NewPointWithMeasurement "sensor_readings"
  |> AddTag "sensor_id" (ID data)
  |> AddTag "location" (Location data)
  |> AddField "temperature" (VFloat (Temperature data))
  |> AddField "humidity" (VFloat (Humidity data))
  |> AddField "pressure" (VFloat (Pressure data))
  |> AddField "altitude" (VFloat (Altitude data))
  |> SetTime (Timestamp data).

(** *** POST /api/v1/sensor-data

    [reqBody] is what json.Decode made of the request body. *)
Definition createSensorData (app : App) (reqBody : result SensorData)
  : Handler HttpResponse :=
  match reqBody with
  | Err err =>
      sendErrorResponse StatusBadRequest "Invalid JSON format" (Some err)
  | Ok data =>
      (* Set timestamp if not provided *)
      data ← (if IsZero (Timestamp data)
              then now ← call TimeNow; mret (setTimestamp data now)
              else mret data);
      (* Generate ID if not provided *)
      let data :=
        if String.eqb (ID data) EmptyString
        then setID data ("sensor_" +:+ fmt_d (Unix (Timestamp data)))
        else data in
      let p := sensorPoint data in
      err ← call (WritePoint p);
      match err with
      | Some e =>
          sendErrorResponse StatusInternalServerError
            "Failed to write to database" (Some e)
      | None =>
          sendSuccessResponse StatusCreated
            "Sensor data created successfully" (DataReading data)
      end
  end.

(** *** GET /api/v1/sensor-data *)

(** Lines 157-162: the limit actually used. *)
Definition limitInt (limit : string) : Z :=
  let limitInt := 100 in
  if negb (String.eqb limit EmptyString) then
    match Atoi limit with
    | Some l => if 0 <? l then l else limitInt
    | None => limitInt
    end
  else limitInt.

(** Lines 165-179: the query text, built by three Sprintf calls. *)
Definition getSensorData_query (app : App) (location : string) (n : Z) : string :=
  let query :=
    LINE +:+ "from(bucket: " +:+ DQ +:+ bucket app +:+ DQ +:+ ")" +:+
    LINE +:+ "|> range(start: -24h)" +:+
    LINE +:+ "|> filter(fn: (r) => r._measurement == " +:+ DQ +:+
      "sensor_readings" +:+ DQ +:+ ")" +:+
    CLOSE in
  let query :=
    if negb (String.eqb location EmptyString) then
      query +:+ ("|> filter(fn: (r) => r.location == " +:+ DQ +:+ location +:+
                 DQ +:+ ")")
    else query in
  query +:+
    (LINE +:+ "|> pivot(rowKey:[" +:+ DQ +:+ "_time" +:+ DQ +:+
       "], columnKey: [" +:+ DQ +:+ "_field" +:+ DQ +:+ "], valueColumn: " +:+
       DQ +:+ "_value" +:+ DQ +:+ ")" +:+
     LINE +:+ "|> limit(n: " +:+ fmt_d n +:+ ")" +:+
     LINE +:+ "|> sort(columns: [" +:+ DQ +:+ "_time" +:+ DQ +:+ "], desc: true)" +:+
     CLOSE).

(** Type assertions [v.(string)] and [v.(float64)]. *)
Definition assertString (v : Value) : Handler string :=
  match v with
  | VString s => mret s
  | _ => Panic
  end.

Definition assertFloat64 (v : Value) : Handler float :=
  match v with
  | VFloat f => mret f
  | _ => Panic
  end.

(** Lines 195-213 and, word for word, 255-273: a row becomes a reading. *)
Definition recordToSensorData (record : FluxRecord) : Handler SensorData :=
  id ← assertString (ValueByKey record "sensor_id");
  loc ← assertString (ValueByKey record "location");
  let data :=
    mkSensorData id (RecordTime record) 0%float 0%float 0%float 0%float loc in
  (* Safely extract field values *)
  data ← (match ValueByKey record "temperature" with
          | VNil => mret data
          | temp => f ← assertFloat64 temp; mret (setTemperature data f)
          end);
  data ← (match ValueByKey record "humidity" with
          | VNil => mret data
          | humidity => f ← assertFloat64 humidity; mret (setHumidity data f)
          end);
  data ← (match ValueByKey record "pressure" with
          | VNil => mret data
          | pressure => f ← assertFloat64 pressure; mret (setPressure data f)
          end);
  data ← (match ValueByKey record "altitude" with
          | VNil => mret data
          | altitude => f ← assertFloat64 altitude; mret (setAltitude data f)
          end);
  mret data.

(** The loop [for result.Next() { ... append ... }]. *)
Fixpoint collectRows (records : list FluxRecord) (sensorData : list SensorData)
  : Handler (list SensorData) :=
  match records with
  | [] => mret sensorData
  | record :: rest =>
      data ← recordToSensorData record;
      collectRows rest (sensorData ++ [data])
  end.

Definition getSensorData (app : App) (limit location : string)
  : Handler HttpResponse :=
  let query := getSensorData_query app location (limitInt limit) in
  res ← call (Query query);
  match res with
  | Err err =>
      sendErrorResponse StatusInternalServerError
        "Failed to query database" (Some err)
  | Ok result =>
      sensorData ← collectRows (rows result) [];
      match iterErr result with
      | Some e =>
          sendErrorResponse StatusInternalServerError
            "Error processing query results" (Some e)
      | None =>
          sendSuccessResponse StatusOK "Data retrieved successfully"
            (DataReadings sensorData)
      end
  end.

(** *** GET /api/v1/sensor-data/{id} *)

Definition getSensorDataByID_query (app : App) (id : string) : string :=
  LINE +:+ "from(bucket: " +:+ DQ +:+ bucket app +:+ DQ +:+ ")" +:+
  LINE +:+ "|> range(start: -30d)" +:+
  LINE +:+ "|> filter(fn: (r) => r._measurement == " +:+ DQ +:+
    "sensor_readings" +:+ DQ +:+ ")" +:+
  LINE +:+ "|> filter(fn: (r) => r.sensor_id == " +:+ DQ +:+ id +:+ DQ +:+ ")" +:+
  LINE +:+ "|> pivot(rowKey:[" +:+ DQ +:+ "_time" +:+ DQ +:+
    "], columnKey: [" +:+ DQ +:+ "_field" +:+ DQ +:+ "], valueColumn: " +:+
    DQ +:+ "_value" +:+ DQ +:+ ")" +:+
  LINE +:+ "|> sort(columns: [" +:+ DQ +:+ "_time" +:+ DQ +:+ "], desc: true)" +:+
  LINE +:+ "|> limit(n: 1)" +:+
  CLOSE.

Definition getSensorDataByID (app : App) (id : string) : Handler HttpResponse :=
  let query := getSensorDataByID_query app id in
  res ← call (Query query);
  match res with
  | Err err =>
      sendErrorResponse StatusInternalServerError
        "Failed to query database" (Some err)
  | Ok result =>
      match rows result with
      | [] => sendErrorResponse StatusNotFound "Sensor data not found" None
      | record :: _ =>
          data ← recordToSensorData record;
          sendSuccessResponse StatusOK "Data retrieved successfully"
            (DataReading data)
      end
  end.

(** *** PUT /api/v1/sensor-data/{id} *)

Definition updateSensorData (app : App) (id : string) (reqBody : result SensorData)
  : Handler HttpResponse :=
  match reqBody with
  | Err err =>
      sendErrorResponse StatusBadRequest "Invalid JSON format" (Some err)
  | Ok updateData =>
      (* Set ID and timestamp *)
      let updateData := setID updateData id in
      updateData ← (if IsZero (Timestamp updateData)
                    then now ← call TimeNow; mret (setTimestamp updateData now)
                    else mret updateData);
      let p := sensorPoint updateData in
      err ← call (WritePoint p);
      match err with
      | Some e =>
          sendErrorResponse StatusInternalServerError
            "Failed to update data" (Some e)
      | None =>
          sendSuccessResponse StatusOK
            "Sensor data updated successfully" (DataReading updateData)
      end
  end.

(** *** DELETE /api/v1/sensor-data/{id} *)

Definition deleteSensorData (app : App) (id : string) (reqBody : string)
  : Handler HttpResponse :=
  sendErrorResponse StatusNotImplemented
    "Delete operation not implemented for time series data" None.

(** *** GET /health *)

Definition healthCheck (app : App) : Handler HttpResponse :=
  res ← call Health;
  match res with
  | Err err =>
      sendErrorResponse StatusServiceUnavailable
        "Database connection failed" (Some err)
  | Ok health =>
      if negb (String.eqb (HStatus health) "pass") then
        sendErrorResponse StatusServiceUnavailable
          "Database connection failed" None
      else
        now ← call TimeNow;
        let response : gmap string Value :=
          <["status" := VString "healthy"]>
          (<["timestamp" := VTime now]>
          (<["database" := VString "connected"]> ∅)) in
        sendSuccessResponse StatusOK "Service is healthy" (DataMap response)
  end.

(** ** The Flux pipelines behind the query texts

    The text of a query is a sequence of stages separated by layout.  A
    pipeline is kept as tokens so that its printed form is the source text,
    character for character, and its stages can be read off and run. *)

Inductive Duration : Type :=
| Hours (n : Z)
| Days (n : Z).

Inductive Stage : Type :=
| SFrom (b : string)                 (* from(bucket: "b") *)
| SRange (start : Duration)          (* range(start: -d) *)
| SFilter (column value : string)    (* filter(fn: (r) => r.column == "value") *)
| SPivot                             (* pivot on _time / _field / _value *)
| SLimit (n : Z)                     (* limit(n: n) *)
| SSortDesc.                         (* sort(columns: ["_time"], desc: true) *)

Inductive Token : Type :=
| TLayout (ws : string)
| TStage (st : Stage).

Definition print_duration (d : Duration) : string :=
  match d with
  | Hours n => fmt_d n +:+ "h"
  | Days n => fmt_d n +:+ "d"
  end.

Definition print_stage (st : Stage) : string :=
  match st with
  | SFrom b => "from(bucket: " +:+ DQ +:+ b +:+ DQ +:+ ")"
  | SRange d => "|> range(start: -" +:+ print_duration d +:+ ")"
  | SFilter column value =>
      "|> filter(fn: (r) => r." +:+ column +:+ " == " +:+ DQ +:+ value +:+
      DQ +:+ ")"
  | SPivot =>
      "|> pivot(rowKey:[" +:+ DQ +:+ "_time" +:+ DQ +:+ "], columnKey: [" +:+
      DQ +:+ "_field" +:+ DQ +:+ "], valueColumn: " +:+ DQ +:+ "_value" +:+
      DQ +:+ ")"
  | SLimit n => "|> limit(n: " +:+ fmt_d n +:+ ")"
  | SSortDesc =>
      "|> sort(columns: [" +:+ DQ +:+ "_time" +:+ DQ +:+ "], desc: true)"
  end.

Definition print_token (t : Token) : string :=
  match t with
  | TLayout ws => ws
  | TStage st => print_stage st
  end.

Fixpoint print_flux (ts : list Token) : string :=
  match ts with
  | [] => EmptyString
  | t :: rest => print_token t +:+ print_flux rest
  end.

Fixpoint stages_of (ts : list Token) : list Stage :=
  match ts with
  | [] => []
  | TLayout _ :: rest => stages_of rest
  | TStage st :: rest => st :: stages_of rest
  end.

(** The pipeline of getSensorData, in the order the three Sprintf calls
    lay it out.  The values are interpolated unescaped, so the list is what
    the text reads as only for a bucket and location without double quote,
    backslash or dollar sign ([parse_getSensorData_query]). *)
Definition getSensorData_flux (app : App) (location : string) (n : Z) : list Token :=
  [ TLayout LINE; TStage (SFrom (bucket app));
    TLayout LINE; TStage (SRange (Hours 24));
    TLayout LINE; TStage (SFilter "_measurement" "sensor_readings");
    TLayout CLOSE ] ++
  (if negb (String.eqb location EmptyString)
   then [ TStage (SFilter "location" location) ]
   else []) ++
  [ TLayout LINE; TStage SPivot;
    TLayout LINE; TStage (SLimit n);
    TLayout LINE; TStage SSortDesc;
    TLayout CLOSE ].

(** The pipeline of getSensorDataByID; what the text reads as only for a
    bucket and id without double quote, backslash or dollar sign
    ([parse_getSensorDataByID_query]). *)
Definition getSensorDataByID_flux (app : App) (id : string) : list Token :=
  [ TLayout LINE; TStage (SFrom (bucket app));
    TLayout LINE; TStage (SRange (Days 30));
    TLayout LINE; TStage (SFilter "_measurement" "sensor_readings");
    TLayout LINE; TStage (SFilter "sensor_id" id);
    TLayout LINE; TStage SPivot;
    TLayout LINE; TStage SSortDesc;
    TLayout LINE; TStage (SLimit 1);
    TLayout CLOSE ].

(** *** Running a pipeline

    Stage semantics on one table of rows at point granularity: a row
    stands for one written point and already carries its tag and field
    columns, so [SPivot] leaves it as it is.  [now] is the instant the
    store evaluates the query. *)

Definition Table : Type := list FluxRecord.

Definition durationNanos (d : Duration) : Z :=
  match d with
  | Hours n => n * 3600 * 1000000000
  | Days n => n * 86400 * 1000000000
  end.

Definition inRange (now : Time) (d : Duration) (r : FluxRecord) : bool :=
  let t := nanos (RecordTime r) in
  (nanos now - durationNanos d <=? t) && (t <? nanos now).

Definition columnIs (column value : string) (r : FluxRecord) : bool :=
  match ValueByKey r column with
  | VString s => String.eqb s value
  | _ => false
  end.

Fixpoint insertDesc (r : FluxRecord) (t : Table) : Table :=
  match t with
  | [] => [r]
  | x :: rest =>
      if nanos (RecordTime x) <? nanos (RecordTime r)
      then r :: t
      else x :: insertDesc r rest
  end.

Definition sortDesc (t : Table) : Table := foldr insertDesc [] t.

Definition applyStage (now : Time) (source : string -> Table) (t : Table)
  (st : Stage) : Table :=
  match st with
  | SFrom b => source b
  | SRange d => List.filter (inRange now d) t
  | SFilter column value => List.filter (columnIs column value) t
  | SPivot => t
  | SLimit n => take (Z.to_nat n) t
  | SSortDesc => sortDesc t
  end.

Definition runFlux (now : Time) (source : string -> Table) (sts : list Stage)
  : Table :=
  fold_left (applyStage now source) sts [].

(** The order the specification gives for the list pipeline: sort, then
    limit. *)
Definition specListStages (app : App) (location : string) (n : Z) : list Stage :=
  [ SFrom (bucket app); SRange (Hours 24);
    SFilter "_measurement" "sensor_readings" ] ++
  (if negb (String.eqb location EmptyString)
   then [ SFilter "location" location ] else []) ++
  [ SPivot; SSortDesc; SLimit n ].

(** ** A store model: the latest written point per sensor id

    The store keeps the points in the order they were written, newest first,
    and answers a by-id query with the row of the newest point that carries
    the queried [sensor_id] tag.  It looks at the order of writing only:
    the range and the sort on [_time] of the query have no effect here (the
    store that evaluates them is [fluxWorld], further down). *)

Record Store : Type := mkStore {
  clock : Time;
  written : list Point;
  logged : list error
}.

(** The pivoted row of a point: time, measurement, tags, fields. *)
Definition rowOf (p : Point) : FluxRecord :=
  list_to_map
    (("_time", VTime (ptime p)) ::
     ("_measurement", VString (measurement p)) ::
     map (fun kv => (fst kv, VString (snd kv))) (tags p) ++ fields p).

Fixpoint tagValue (k : string) (ts : list (string * string)) : option string :=
  match ts with
  | [] => None
  | (k', v) :: rest => if String.eqb k' k then Some v else tagValue k rest
  end.

Definition hasSensorID (id : string) (p : Point) : bool :=
  match tagValue "sensor_id" (tags p) with
  | Some v => String.eqb v id
  | None => false
  end.

Fixpoint strip_prefix (p s : string) : option string :=
  match p with
  | EmptyString => Some s
  | String a p' =>
      match s with
      | EmptyString => None
      | String b s' => if Ascii.eqb a b then strip_prefix p' s' else None
      end
  end.

Fixpoint strip_suffix (suf s : string) : option string :=
  if String.eqb s suf then Some EmptyString
  else match s with
       | EmptyString => None
       | String c s' => String c <$> strip_suffix suf s'
       end.

(** The text of a by-id query before and after the id. *)
Definition byIdPrefix (b : string) : string :=
  LINE +:+ "from(bucket: " +:+ DQ +:+ b +:+ DQ +:+ ")" +:+
  LINE +:+ "|> range(start: -30d)" +:+
  LINE +:+ "|> filter(fn: (r) => r._measurement == " +:+ DQ +:+
    "sensor_readings" +:+ DQ +:+ ")" +:+
  LINE +:+ "|> filter(fn: (r) => r.sensor_id == " +:+ DQ.

Definition byIdSuffix : string :=
  DQ +:+ ")" +:+
  LINE +:+ "|> pivot(rowKey:[" +:+ DQ +:+ "_time" +:+ DQ +:+
    "], columnKey: [" +:+ DQ +:+ "_field" +:+ DQ +:+ "], valueColumn: " +:+
    DQ +:+ "_value" +:+ DQ +:+ ")" +:+
  LINE +:+ "|> sort(columns: [" +:+ DQ +:+ "_time" +:+ DQ +:+ "], desc: true)" +:+
  LINE +:+ "|> limit(n: 1)" +:+
  CLOSE.

Definition queriedID (b q : string) : option string :=
  strip_prefix (byIdPrefix b) q ≫= strip_suffix byIdSuffix.

Definition storeQuery (b q : string) (s : Store) : result QueryTableResult :=
  match queriedID b q with
  | Some id =>
      match List.find (hasSensorID id) (written s) with
      | Some p => Ok (mkQueryResult [rowOf p] None)
      | None => Ok (mkQueryResult [] None)
      end
  | None => Err "unsupported query"
  end.

(** The world of that store for the bucket [b]: writes always succeed. *)
Definition storeWorld (b : string) : World Store :=
  mkWorld Store
    (fun s => (clock s, s))
    (fun p s => (None, mkStore (clock s) (p :: written s) (logged s)))
    (fun q s => (storeQuery b q s, s))
    (fun s => (Ok (mkHealth "pass"), s))
    (fun e s => mkStore (clock s) (written s) (logged s ++ [e])).

(** ** A scripted world: fixed answers, and the calls in the order made *)

Inductive Event : Type :=
| EvNow
| EvWrite (p : Point)
| EvQuery (q : string)
| EvHealth
| EvLog (e : error).

Record Oracle : Type := mkOracle {
  o_now : Time;
  o_write : Point -> option error;
  o_query : string -> result QueryTableResult;
  o_health : result HealthCheck
}.

Definition oracleWorld (o : Oracle) : World (list Event) :=
  mkWorld (list Event)
    (fun s => (o_now o, s ++ [EvNow]))
    (fun p s => (o_write o p, s ++ [EvWrite p]))
    (fun q s => (o_query o q, s ++ [EvQuery q]))
    (fun s => (o_health o, s ++ [EvHealth]))
    (fun e s => s ++ [EvLog e]).

(** The response and the calls of a handler under scripted answers. *)
Definition exec {A : Type} (o : Oracle) (h : Handler A) : option A * list Event :=
  run (oracleWorld o) h [].

Definition isQuery (e : Event) : bool :=
  match e with
  | EvQuery _ => true
  | _ => false
  end.

(** ** Rows the gateway can decode

    The columns a pivoted row of [sensor_readings] has when it comes from
    points this gateway wrote: both tags are strings, and each measurement
    is a float64 or missing. *)

Definition isString (v : Value) : bool :=
  match v with
  | VString _ => true
  | _ => false
  end.

Definition nilOrFloat (v : Value) : bool :=
  match v with
  | VNil | VFloat _ => true
  | _ => false
  end.

Definition wellTypedRow (r : FluxRecord) : bool :=
  isString (ValueByKey r "sensor_id") &&
  isString (ValueByKey r "location") &&
  nilOrFloat (ValueByKey r "temperature") &&
  nilOrFloat (ValueByKey r "humidity") &&
  nilOrFloat (ValueByKey r "pressure") &&
  nilOrFloat (ValueByKey r "altitude").

Definition stringOf (v : Value) : string :=
  match v with
  | VString s => s
  | _ => EmptyString
  end.

Definition floatOrZero (v : Value) : float :=
  match v with
  | VFloat f => f
  | _ => 0%float
  end.

(** The reading a well-typed row stands for. *)
Definition readingOf (r : FluxRecord) : SensorData :=
  mkSensorData
    (stringOf (ValueByKey r "sensor_id"))
    (RecordTime r)
    (floatOrZero (ValueByKey r "temperature"))
    (floatOrZero (ValueByKey r "humidity"))
    (floatOrZero (ValueByKey r "pressure"))
    (floatOrZero (ValueByKey r "altitude"))
    (stringOf (ValueByKey r "location")).

(** The two envelopes. *)
Definition successReply (code : Z) (message : string) (data : Data) : HttpResponse :=
  mkHttp "application/json" code (mkResponse "success" message data).

Definition errorReply (code : Z) (message : string) : HttpResponse :=
  mkHttp "application/json" code (mkResponse "error" message NoData).

Definition isSuccess (r : option HttpResponse) : bool :=
  match r with
  | Some h => String.eqb (Status (body h)) "success"
  | None => false
  end.

(** ** Predicates on tables *)

Definition timeOf (r : FluxRecord) : Z := nanos (RecordTime r).

(** Sorted on [_time], newest first. *)
Fixpoint descending (t : Table) : Prop :=
  match t with
  | [] => True
  | x :: rest => (forall y, In y rest -> timeOf y <= timeOf x) /\ descending rest
  end.

(** The rows a by-id query is about: in the bucket, within the last 30
    days, of the measurement, with the sensor id. *)
Definition matchesByID (now : Time) (source : string -> Table) (app : App)
  (id : string) (r : FluxRecord) : Prop :=
  In r (source (bucket app)) /\
  inRange now (Days 30) r = true /\
  columnIs "_measurement" "sensor_readings" r = true /\
  columnIs "sensor_id" id r = true.

(** ** Create and update side by side *)

(** The reading createSensorData stores for a decoded body, given the
    clock's answer: lines 120-128. *)
Definition createdReading (now : Time) (data : SensorData) : SensorData :=
  let data := if IsZero (Timestamp data) then setTimestamp data now else data in
  if String.eqb (ID data) EmptyString
  then setID data ("sensor_" +:+ fmt_d (Unix (Timestamp data)))
  else data.

(** The reading updateSensorData stores: lines 288-292. *)
Definition updatedReading (now : Time) (id : string) (updateData : SensorData)
  : SensorData :=
  let updateData := setID updateData id in
  if IsZero (Timestamp updateData) then setTimestamp updateData now
  else updateData.

(** Update "is Create with the id forced": the request body Create is
    compared on. *)
Definition forceID (id : string) (reqBody : result SensorData)
  : result SensorData :=
  match reqBody with
  | Ok data => Ok (setID data id)
  | Err e => Err e
  end.

(** The only differences between the two handlers' replies: the success
    status and the two messages. *)
Definition asUpdateReply (r : HttpResponse) : HttpResponse :=
  if statusCode r =? StatusCreated then
    mkHttp (contentType r) StatusOK
      (mkResponse (Status (body r)) "Sensor data updated successfully"
         (Payload (body r)))
  else if statusCode r =? StatusInternalServerError then
    mkHttp (contentType r) (statusCode r)
      (mkResponse (Status (body r)) "Failed to update data" (Payload (body r)))
  else r.

(** The instant the clock is asked for, when it is. *)
Definition askClock {S : Type} (W : World S) (ts : Time) (s : S) : Time * S :=
  if IsZero ts then w_now W s else (ts, s).

(** ** Sample data *)

Definition sampleApp : App := mkApp "sensor_data" "myorg".

(** A request body without id and timestamp. *)
Definition sampleReading : SensorData :=
  mkSensorData EmptyString zeroTime 21.5%float 40%float 1013.25%float
    12%float "lab".

Definition sampleStore : Store := mkStore (mkTime 63900000000 5) [] [].

Definition sampleOracle : Oracle :=
  mkOracle (mkTime 63900000000 5) (fun _ => None)
    (fun _ => Ok (mkQueryResult [] None)) (Ok (mkHealth "pass")).

(** The row of a reading of sensor [id] taken at second [t]. *)
Definition sampleRow (id : string) (t : Z) : FluxRecord :=
  rowOf (sensorPoint
           (mkSensorData id (mkTime t 0) 1%float 2%float 3%float 4%float "lab")).

(** One series, three readings, oldest first as the store keeps them. *)
Definition sampleTable : Table :=
  [sampleRow "a" 1001; sampleRow "a" 1002; sampleRow "a" 1003].

(** A row whose temperature and altitude columns are missing. *)
Definition sparseRow : FluxRecord :=
  list_to_map
    [("_time", VTime (mkTime 1001 0)); ("sensor_id", VString "a");
     ("location", VString "lab"); ("humidity", VFloat 40%float);
     ("pressure", VFloat 1013.25%float)].

(** ** The path variable of the by-id routes

    Lines 91-93 register [/sensor-data/{id}] under the prefix [/api/v1];
    the router matches [{id}] against one or more characters other than
    a slash, so a handler never sees an empty id. *)

Fixpoint noSlash (s : string) : bool :=
  match s with
  | EmptyString => true
  | String c rest => negb (Ascii.eqb c "/"%char) && noSlash rest
  end.

Definition pathID (path : string) : option string :=
  match strip_prefix "/api/v1/sensor-data/" path with
  | Some id =>
      if negb (String.eqb id EmptyString) && noSlash id then Some id else None
  | None => None
  end.

(** ** Reading the calls of a run *)

Fixpoint writesOf (evs : list Event) : list Point :=
  match evs with
  | [] => []
  | EvWrite p :: rest => p :: writesOf rest
  | _ :: rest => writesOf rest
  end.

Fixpoint queriesOf (evs : list Event) : list string :=
  match evs with
  | [] => []
  | EvQuery q :: rest => q :: queriesOf rest
  | _ :: rest => queriesOf rest
  end.

Fixpoint logsOf (evs : list Event) : list error :=
  match evs with
  | [] => []
  | EvLog e :: rest => e :: logsOf rest
  | _ :: rest => logsOf rest
  end.

Definition isHealthOrClock (e : Event) : bool :=
  match e with
  | EvHealth | EvNow => true
  | _ => false
  end.

(** The messages sendErrorResponse is called with, anywhere in main.go. *)
Definition errorMessages : list string :=
  [ "Invalid JSON format"; "Failed to write to database";
    "Failed to query database"; "Error processing query results";
    "Sensor data not found"; "Failed to update data";
    "Delete operation not implemented for time series data";
    "Database connection failed" ].

Definition inStrings (x : string) (l : list string) : bool :=
  existsb (String.eqb x) l.

(** The two shapes a reply of the gateway has. *)
Definition replyShape (r : HttpResponse) : bool :=
  String.eqb (contentType r) "application/json" &&
  (if String.eqb (Status (body r)) "success" then
     ((statusCode r =? StatusOK) || (statusCode r =? StatusCreated)) &&
     match Payload (body r) with NoData => false | _ => true end
   else
     String.eqb (Status (body r)) "error" &&
     (400 <=? statusCode r) &&
     inStrings (Message (body r)) errorMessages &&
     match Payload (body r) with NoData => true | _ => false end).

Definition shapeOK (r : option HttpResponse) : bool :=
  match r with
  | Some h => replyShape h
  | None => true
  end.

(** The same answers with every error text blanked. *)
Definition redactResult {A : Type} (r : result A) : result A :=
  match r with
  | Ok a => Ok a
  | Err _ => Err EmptyString
  end.

Definition redactOption (e : option error) : option error :=
  match e with
  | Some _ => Some EmptyString
  | None => None
  end.

Definition redactQuery (r : result QueryTableResult) : result QueryTableResult :=
  match r with
  | Ok res => Ok (mkQueryResult (rows res) (redactOption (iterErr res)))
  | Err _ => Err EmptyString
  end.

Definition redact (o : Oracle) : Oracle :=
  mkOracle (o_now o)
    (fun p => redactOption (o_write o p))
    (fun q => redactQuery (o_query o q))
    (redactResult (o_health o)).

(** ** The http.ResponseWriter and the CORS middleware

    The writer keeps what goes on the wire: the header map as sent, the
    status of the first WriteHeader, and the values encoded into the body.
    Setting a header after the status line has gone out changes nothing on
    the wire, a second WriteHeader is ignored, and the first write of a body
    sends status 200 when none was sent. *)

Inductive Encoded : Type :=
| EncResponse (r : Response)
| EncStrings (m : gmap string string).

Record ResponseWriter : Type := mkWriter {
  wHeader : gmap string string;
  wStatus : option Z;
  wBody : list Encoded
}.

Definition newWriter : ResponseWriter := mkWriter ∅ None [].

Definition HeaderSet (k v : string) (w : ResponseWriter) : ResponseWriter :=
  match wStatus w with
  | Some _ => w
  | None => mkWriter (<[k := v]> (wHeader w)) None (wBody w)
  end.

Definition WriteHeader (code : Z) (w : ResponseWriter) : ResponseWriter :=
  match wStatus w with
  | Some _ => w
  | None => mkWriter (wHeader w) (Some code) (wBody w)
  end.

Definition Encode (x : Encoded) (w : ResponseWriter) : ResponseWriter :=
  let w := WriteHeader StatusOK w in
  mkWriter (wHeader w) (wStatus w) (wBody w ++ [x]).

(** Lines 349-358 and 362-374 on the writer: Content-Type, status, body. *)
Definition writeReply (r : HttpResponse) (w : ResponseWriter) : ResponseWriter :=
  w |> HeaderSet "Content-Type" (contentType r)
    |> WriteHeader (statusCode r)
    |> Encode (EncResponse (body r)).

Record Request : Type := mkRequest {
  Method : string;
  URLQuery : gmap string string;     (* first value of each query parameter *)
  Vars : gmap string string;         (* the route variables *)
  reqJSON : result SensorData        (* what json.Decode makes of the body *)
}.

(** [r.URL.Query().Get(key)] and [mux.Vars(r)[key]]: empty when absent. *)
Definition lookupOrEmpty (m : gmap string string) (key : string) : string :=
  match m !! key with
  | Some v => v
  | None => EmptyString
  end.

Definition HTTPHandler : Type := Request -> ResponseWriter -> Handler ResponseWriter.

(** The six handler functions as http handlers: parameters read from the
    request, the reply written into the writer. *)
Definition serveReply (h : Request -> Handler HttpResponse) : HTTPHandler :=
  fun r w => reply ← h r; mret (writeReply reply w).

Definition createRoute (app : App) : HTTPHandler :=
  serveReply (fun r => createSensorData app (reqJSON r)).
Definition listRoute (app : App) : HTTPHandler :=
  serveReply (fun r =>
    getSensorData app (lookupOrEmpty (URLQuery r) "limit")
      (lookupOrEmpty (URLQuery r) "location")).
Definition getRoute (app : App) : HTTPHandler :=
  serveReply (fun r => getSensorDataByID app (lookupOrEmpty (Vars r) "id")).
Definition updateRoute (app : App) : HTTPHandler :=
  serveReply (fun r =>
    updateSensorData app (lookupOrEmpty (Vars r) "id") (reqJSON r)).
Definition deleteRoute (app : App) : HTTPHandler :=
  serveReply (fun r =>
    deleteSensorData app (lookupOrEmpty (Vars r) "id") EmptyString).
Definition healthRoute (app : App) : HTTPHandler :=
  serveReply (fun _ => healthCheck app).

(** Lines 98-104: the /test route. *)
Definition testRoute : HTTPHandler :=
  fun _ w =>
    mret (w |> HeaderSet "Content-Type" "application/json"
            |> Encode (EncStrings
                 (<["status" := "ok"]> (<["message" := "API is working"]> ∅)))).

(** Lines 377-390. *)
Definition corsMiddleware (next : HTTPHandler) : HTTPHandler :=
  fun r w =>
    let w := w
      |> HeaderSet "Access-Control-Allow-Origin" "*"
      |> HeaderSet "Access-Control-Allow-Methods" "GET, POST, PUT, DELETE, OPTIONS"
      |> HeaderSet "Access-Control-Allow-Headers" "Content-Type, Authorization" in
    if String.eqb (Method r) "OPTIONS" then mret (WriteHeader StatusOK w)
    else next r w.

(** The header map after the three Set calls on a fresh writer. *)
Definition corsHeaders : gmap string string :=
  <["Access-Control-Allow-Headers" := "Content-Type, Authorization"]>
  (<["Access-Control-Allow-Methods" := "GET, POST, PUT, DELETE, OPTIONS"]>
  (<["Access-Control-Allow-Origin" := "*"]> ∅)).

(** ** Configuration and start-up *)

Definition Environ : Type := gmap string string.

(** [os.Getenv]: the value, empty when the variable is not set. *)
Definition Getenv (env : Environ) (key : string) : string :=
  lookupOrEmpty env key.

(** Lines 341-346. *)
Definition getEnv (env : Environ) (key defaultValue : string) : string :=
  let value := Getenv env key in
  if negb (String.eqb value EmptyString) then value else defaultValue.

(** How main ends: a fatal log line (the process exits), or the server
    listening on an address with the application it was built with and the
    client's URL and token; [startLog] are the lines logged on the way. *)
Inductive Startup : Type :=
| Fatal (msg : string)
| Serving (startLog : list string) (url token : string) (app : App)
    (addr : string).

(** Lines 45-111, up to the call of ListenAndServe. *)
Definition main (env : Environ) : Handler Startup :=
  let influxURL := getEnv env "INFLUXDB_URL" "http://influxdb:8086" in
  let influxToken := getEnv env "INFLUXDB_TOKEN" EmptyString in
  let influxOrg := getEnv env "INFLUXDB_ORG" "myorg" in
  let influxBucket := getEnv env "INFLUXDB_BUCKET" "sensor_data" in
  let port := getEnv env "PORT" "8080" in
  if String.eqb influxToken EmptyString then
    mret (Fatal "INFLUXDB_TOKEN environment variable is required")
  else
    res ← call Health;
    match res with
    | Err err => mret (Fatal ("Failed to connect to InfluxDB: " +:+ err))
    | Ok health =>
        if negb (String.eqb (HStatus health) "pass") then
          mret (Fatal ("InfluxDB health check failed: " +:+ HStatus health))
        else
          let app := mkApp influxBucket influxOrg in
          mret (Serving
                  [ "Successfully connected to InfluxDB";
                    "Server starting on port " +:+ port ]
                  influxURL influxToken app (":" +:+ port))
    end.

(** ** The store's clock between requests *)

Definition setClock (t : Time) (s : Store) : Store :=
  mkStore t (written s) (logged s).

(** ** The sensor id a point is tagged with *)

Definition sensorIDOf (p : Point) : option string :=
  tagValue "sensor_id" (tags p).

Definition taggedNonEmpty (p : Point) : bool :=
  match sensorIDOf p with
  | Some id => negb (String.eqb id EmptyString)
  | None => false
  end.

(** ** Reading a query text back

    The store receives text, not stages.  [parse_flux] reads the dialect the
    gateway writes: stages spelled as main.go spells them, separated by
    white space, with string literals running up to the next double quote.
    A literal holding a backslash or a dollar sign (escapes, interpolation)
    is outside the dialect and the text is refused. *)

Definition plainChar (c : ascii) : bool :=
  negb (Ascii.eqb c "034"%char) && negb (Ascii.eqb c "092"%char) &&
  negb (Ascii.eqb c "036"%char).

(** No double quote, backslash or dollar sign. *)
Fixpoint plain (s : string) : bool :=
  match s with
  | EmptyString => true
  | String c rest => plainChar c && plain rest
  end.

Fixpoint scanLiteral (s : string) : option (string * string) :=
  match s with
  | EmptyString => None
  | String c rest =>
      if Ascii.eqb c "034"%char then Some (EmptyString, rest)
      else if plainChar c then
        match scanLiteral rest with
        | Some (lit, r) => Some (String c lit, r)
        | None => None
        end
      else None
  end.

Definition identChar (c : ascii) : bool :=
  let n := Z.of_N (N_of_ascii c) in
  ((48 <=? n) && (n <=? 57)) || ((65 <=? n) && (n <=? 90)) ||
  ((97 <=? n) && (n <=? 122)) || (n =? 95).

Fixpoint allChars (f : ascii -> bool) (s : string) : bool :=
  match s with
  | EmptyString => true
  | String c rest => f c && allChars f rest
  end.

Fixpoint scanWhile (f : ascii -> bool) (s : string) : string * string :=
  match s with
  | EmptyString => (EmptyString, EmptyString)
  | String c rest =>
      if f c then let '(taken, r) := scanWhile f rest in (String c taken, r)
      else (EmptyString, s)
  end.

Definition isDigit (c : ascii) : bool :=
  match digit_of c with
  | Some _ => true
  | None => false
  end.

Definition isSpace (c : ascii) : bool :=
  let n := Z.of_N (N_of_ascii c) in
  (n =? 32) || (n =? 9) || (n =? 10) || (n =? 13).

Fixpoint skipSpace (s : string) : string :=
  match s with
  | EmptyString => EmptyString
  | String c rest => if isSpace c then skipSpace rest else s
  end.

Definition parseNumber (s : string) : option (Z * string) :=
  let '(ds, r) := scanWhile isDigit s in
  match ds with
  | EmptyString => None
  | _ =>
      match digits_value ds 0 with
      | Some n => Some (n, r)
      | None => None
      end
  end.

Definition parseDuration (s : string) : option (Duration * string) :=
  match parseNumber s with
  | Some (n, String c r) =>
      if Ascii.eqb c "h"%char then Some (Hours n, r)
      else if Ascii.eqb c "d"%char then Some (Days n, r)
      else None
  | _ => None
  end.

Definition kwPivot : string :=
  "pivot(rowKey:[" +:+ DQ +:+ "_time" +:+ DQ +:+ "], columnKey: [" +:+ DQ +:+
  "_field" +:+ DQ +:+ "], valueColumn: " +:+ DQ +:+ "_value" +:+ DQ +:+ ")".

Definition kwSort : string :=
  "sort(columns: [" +:+ DQ +:+ "_time" +:+ DQ +:+ "], desc: true)".

(** A quoted literal followed by the closing parenthesis. *)
Definition parseQuoted (s : string) : option (string * string) :=
  match strip_prefix DQ s with
  | Some r =>
      match scanLiteral r with
      | Some (v, r) =>
          match strip_prefix ")" r with
          | Some r => Some (v, r)
          | None => None
          end
      | None => None
      end
  | None => None
  end.

Definition parseFilter (s : string) : option (Stage * string) :=
  let '(column, r) := scanWhile identChar s in
  match column with
  | EmptyString => None
  | _ =>
      match strip_prefix " == " r with
      | Some r =>
          match parseQuoted r with
          | Some (value, r) => Some (SFilter column value, r)
          | None => None
          end
      | None => None
      end
  end.

Definition closeParen {A : Type} (x : option (A * string)) : option (A * string) :=
  match x with
  | Some (a, r) =>
      match strip_prefix ")" r with
      | Some r => Some (a, r)
      | None => None
      end
  | None => None
  end.

Definition parsePiped (s : string) : option (Stage * string) :=
  match strip_prefix "range(start: -" s with
  | Some r =>
      match closeParen (parseDuration r) with
      | Some (d, r) => Some (SRange d, r)
      | None => None
      end
  | None =>
  match strip_prefix "filter(fn: (r) => r." s with
  | Some r => parseFilter r
  | None =>
  match strip_prefix kwPivot s with
  | Some r => Some (SPivot, r)
  | None =>
  match strip_prefix "limit(n: " s with
  | Some r =>
      match closeParen (parseNumber r) with
      | Some (n, r) => Some (SLimit n, r)
      | None => None
      end
  | None =>
  match strip_prefix kwSort s with
  | Some r => Some (SSortDesc, r)
  | None => None
  end end end end end.

Definition parseStage (s : string) : option (Stage * string) :=
  match strip_prefix "from(bucket: " s with
  | Some r =>
      match parseQuoted r with
      | Some (b, r) => Some (SFrom b, r)
      | None => None
      end
  | None =>
      match strip_prefix "|> " s with
      | Some r => parsePiped r
      | None => None
      end
  end.

Fixpoint parseStages (fuel : nat) (s : string) : option (list Stage) :=
  match skipSpace s with
  | EmptyString => Some []
  | s' =>
      match fuel with
      | O => None
      | S fuel' =>
          match parseStage s' with
          | Some (st, r) =>
              match parseStages fuel' r with
              | Some sts => Some (st :: sts)
              | None => None
              end
          | None => None
          end
      end
  end.

(** Every stage takes at least one character, so the length of the text is
    fuel enough. *)
Definition parse_flux (s : string) : option (list Stage) :=
  parseStages (String.length s) s.

(** Stages and token lists that print into the dialect. *)
Definition wfDuration (d : Duration) : bool :=
  match d with
  | Hours n | Days n => 0 <=? n
  end.

Definition wfStage (st : Stage) : bool :=
  match st with
  | SFrom b => plain b
  | SRange d => wfDuration d
  | SFilter column value =>
      negb (String.eqb column EmptyString) && allChars identChar column &&
      plain value
  | SPivot => true
  | SLimit n => 0 <=? n
  | SSortDesc => true
  end.

Definition wfToken (t : Token) : bool :=
  match t with
  | TLayout ws => allChars isSpace ws
  | TStage st => wfStage st
  end.

(** The rows a store holding [source] returns for a query text at the
    instant [now]; [None] when the text is not a query of the dialect. *)
Definition queryRows (now : Time) (source : string -> Table) (q : string)
  : option Table :=
  match parse_flux q with
  | Some sts => Some (runFlux now source sts)
  | None => None
  end.

(** ** A store that evaluates the query it is sent

    The table of the bucket holds the rows of the written points, oldest
    [_time] first, as one series; a query text is read with [parse_flux] and
    run at the store's clock.  A text outside the dialect is an error of the
    Query call. *)

Definition tableOf (s : Store) : Table :=
  rev (sortDesc (map rowOf (written s))).

Definition storeSource (b : string) (s : Store) : string -> Table :=
  fun b' => if String.eqb b' b then tableOf s else [].

Definition fluxQuery (b q : string) (s : Store) : result QueryTableResult :=
  match queryRows (clock s) (storeSource b s) q with
  | Some table => Ok (mkQueryResult table None)
  | None => Err "invalid query"
  end.

Definition fluxWorld (b : string) : World Store :=
  mkWorld Store
    (fun s => (clock s, s))
    (fun p s => (None, mkStore (clock s) (p :: written s) (logged s)))
    (fun q s => (fluxQuery b q s, s))
    (fun s => (Ok (mkHealth "pass"), s))
    (fun e s => mkStore (clock s) (written s) (logged s ++ [e])).

(** A store that holds the points of the given readings and nothing else. *)
Definition storeOf (now : Time) (ds : list SensorData) : Store :=
  mkStore now (map sensorPoint ds) [].

(** [t] lies in the 30 days before [now]. *)
Definition inWindow30 (now t : Time) : bool :=
  (nanos now - durationNanos (Days 30) <=? nanos t) && (nanos t <? nanos now).

(** The stages of the by-id query. *)
Definition byIDStages (app : App) (id : string) : list Stage :=
  [ SFrom (bucket app); SRange (Days 30);
    SFilter "_measurement" "sensor_readings"; SFilter "sensor_id" id;
    SPivot; SSortDesc; SLimit 1 ].

(** An id that closes its own string literal and opens a second filter. *)
Definition quotedID : string :=
  "a" +:+ DQ +:+ ")" +:+ LINE +:+ "|> filter(fn: (r) => r.sensor_id == " +:+
  DQ +:+ "b".

(** A row of sensor "a" that has no location column. *)
Definition rowWithoutLocation : FluxRecord :=
  list_to_map
    [("_time", VTime (mkTime 1001 0)); ("sensor_id", VString "a");
     ("temperature", VFloat 21.5%float)].

(** * Properties *)

(** ** Strings *)

Lemma append_cons (x : ascii) (a b : string) :
  String x a +:+ b = String x (a +:+ b).
Proof. reflexivity. Qed.

Lemma append_assoc (a b c : string) : (a +:+ b) +:+ c = a +:+ (b +:+ c).
Proof.
  induction a as [|x a IH]; [reflexivity |].
  rewrite !append_cons, IH. reflexivity.
Qed.

Lemma append_nil_r (a : string) : a +:+ EmptyString = a.
Proof.
  induction a as [|x a IH]; [reflexivity |].
  rewrite append_cons, IH. reflexivity.
Qed.

Lemma length_append (a b : string) :
  String.length (a +:+ b) = (String.length a + String.length b)%nat.
Proof.
  induction a as [|x a IH]; [reflexivity |].
  rewrite append_cons. simpl. rewrite IH. reflexivity.
Qed.

Lemma strip_prefix_append (p s : string) : strip_prefix p (p +:+ s) = Some s.
Proof.
  induction p as [|a p IH]; [reflexivity |].
  rewrite append_cons. simpl. rewrite Ascii.eqb_refl. exact IH.
Qed.

Lemma strip_suffix_here (suf : string) :
  strip_suffix suf suf = Some EmptyString.
Proof. destruct suf; simpl; rewrite ?String.eqb_refl, ?Ascii.eqb_refl; reflexivity. Qed.

Lemma strip_suffix_append (suf m : string) :
  strip_suffix suf (m +:+ suf) = Some m.
Proof.
  induction m as [|c m IH].
  - apply strip_suffix_here.
  - rewrite append_cons. cbn [strip_suffix].
    destruct (String.eqb_spec (String c (m +:+ suf)) suf) as [E|_].
    + apply (f_equal String.length) in E. simpl in E.
      rewrite length_append in E. lia.
    + rewrite IH. reflexivity.
Qed.

(** ** The limit parameter *)

Lemma limitInt_cases (limit : string) :
  limitInt limit =
  match Atoi limit with
  | Some l => if 0 <? l then l else 100
  | None => 100
  end.
Proof.
  unfold limitInt. destruct limit; reflexivity.
Qed.

(** ** Decoding rows *)

Lemma recordToSensorData_spec (r : FluxRecord) :
  recordToSensorData r = if wellTypedRow r then Ret (readingOf r) else Panic.
Proof.
  unfold recordToSensorData, wellTypedRow, readingOf.
  destruct (ValueByKey r "sensor_id"); try reflexivity.
  destruct (ValueByKey r "location"); try reflexivity.
  destruct (ValueByKey r "temperature"); try reflexivity;
    destruct (ValueByKey r "humidity"); try reflexivity;
    destruct (ValueByKey r "pressure"); try reflexivity;
    destruct (ValueByKey r "altitude"); reflexivity.
Qed.

Lemma collectRows_spec (rs : list FluxRecord) (acc : list SensorData) :
  collectRows rs acc =
  if forallb wellTypedRow rs then Ret (acc ++ map readingOf rs) else Panic.
Proof.
  revert acc. induction rs as [|r rs IH]; intro acc.
  - simpl. rewrite app_nil_r. reflexivity.
  - cbn [collectRows forallb map]. rewrite recordToSensorData_spec.
    destruct (wellTypedRow r); [|reflexivity].
    cbn. rewrite IH. rewrite <- app_assoc. reflexivity.
Qed.

(** ** Query texts are the printed pipelines *)

Lemma getSensorData_flux_text (app : App) (location : string) (n : Z) :
  print_flux (getSensorData_flux app location n) =
  getSensorData_query app location n.
Proof.
  unfold getSensorData_flux, getSensorData_query.
  destruct (negb (String.eqb location EmptyString));
    cbn [List.app print_flux print_token print_stage print_duration];
    rewrite ?append_assoc, ?append_nil_r; reflexivity.
Qed.

Lemma getSensorDataByID_flux_text (app : App) (id : string) :
  print_flux (getSensorDataByID_flux app id) = getSensorDataByID_query app id.
Proof.
  unfold getSensorDataByID_flux, getSensorDataByID_query.
  cbn [List.app print_flux print_token print_stage print_duration].
  rewrite ?append_assoc, ?append_nil_r; reflexivity.
Qed.

(** ** What the read handlers do under scripted answers *)

Lemma exec_getSensorData (app : App) (limit location : string) (o : Oracle) :
  exec o (getSensorData app limit location) =
  let q := getSensorData_query app location (limitInt limit) in
  match o_query o q with
  | Err e =>
      (Some (errorReply StatusInternalServerError "Failed to query database"),
       [EvQuery q; EvLog e])
  | Ok result =>
      if forallb wellTypedRow (rows result) then
        match iterErr result with
        | Some e =>
            (Some (errorReply StatusInternalServerError
                     "Error processing query results"),
             [EvQuery q; EvLog e])
        | None =>
            (Some (successReply StatusOK "Data retrieved successfully"
                     (DataReadings (map readingOf (rows result)))),
             [EvQuery q])
        end
      else (None, [EvQuery q])
  end.
Proof.
  unfold exec, getSensorData. cbn.
  destruct (o_query o _) as [result|e]; [|reflexivity].
  cbn. rewrite collectRows_spec.
  destruct (forallb wellTypedRow (rows result)); [|reflexivity].
  destruct (iterErr result); reflexivity.
Qed.

Lemma exec_getSensorDataByID (app : App) (id : string) (o : Oracle) :
  exec o (getSensorDataByID app id) =
  let q := getSensorDataByID_query app id in
  match o_query o q with
  | Err e =>
      (Some (errorReply StatusInternalServerError "Failed to query database"),
       [EvQuery q; EvLog e])
  | Ok result =>
      match rows result with
      | [] => (Some (errorReply StatusNotFound "Sensor data not found"),
               [EvQuery q])
      | record :: _ =>
          if wellTypedRow record then
            (Some (successReply StatusOK "Data retrieved successfully"
                     (DataReading (readingOf record))),
             [EvQuery q])
          else (None, [EvQuery q])
      end
  end.
Proof.
  unfold exec, getSensorDataByID. cbn.
  destruct (o_query o _) as [result|e]; [|reflexivity].
  destruct (rows result) as [|record rest]; [reflexivity|].
  cbn. rewrite recordToSensorData_spec.
  destruct (wellTypedRow record); reflexivity.
Qed.

(** ** C5: delete *)

(** C5. For every world, state, id and request body, deleteSensorData
    replies 501 with the error envelope and leaves the state as it was; under
    scripted answers it makes no call at all, so in particular no write. *)
Theorem delete_not_implemented (app : App) (id reqBody : string) :
  (forall (S : Type) (W : World S) (s : S),
      run W (deleteSensorData app id reqBody) s =
      (Some (errorReply StatusNotImplemented
               "Delete operation not implemented for time series data"), s)) /\
  (forall o, snd (exec o (deleteSensorData app id reqBody)) = []) /\
  statusCode (errorReply StatusNotImplemented
                "Delete operation not implemented for time series data") = 501.
Proof.
  repeat split; reflexivity.
Qed.

(** ** C7: health *)

(** C7. healthCheck replies with the success envelope if and only if the
    Health call succeeds with status "pass", and then it is the 200 reply
    "Service is healthy"; in every other case (the call fails, or the status
    is any other string) the reply is the 503 error envelope. *)
Theorem health_ok_iff_pass (app : App) (o : Oracle) :
  (isSuccess (fst (exec o (healthCheck app))) = true <->
   exists h, o_health o = Ok h /\ HStatus h = "pass") /\
  (isSuccess (fst (exec o (healthCheck app))) = false ->
   fst (exec o (healthCheck app)) =
   Some (errorReply StatusServiceUnavailable "Database connection failed")) /\
  (isSuccess (fst (exec o (healthCheck app))) = true ->
   exec o (healthCheck app) =
   (Some (successReply StatusOK "Service is healthy"
            (DataMap (<["status" := VString "healthy"]>
                      (<["timestamp" := VTime (o_now o)]>
                      (<["database" := VString "connected"]> ∅))))),
    [EvHealth; EvNow])).
Proof.
  unfold exec, healthCheck. cbn.
  destruct (o_health o) as [h|e]; cbn.
  - destruct (String.eqb_spec (HStatus h) "pass") as [E|E]; cbn.
    + split; [|split; [discriminate | reflexivity]].
      split; [intros _; exists h; split; [reflexivity | exact E] | reflexivity].
    + split; [|split; [reflexivity | discriminate]].
      split; [discriminate |].
      intros [h' [Hh' Hp]]. injection Hh' as <-. contradiction.
  - split; [|split; [reflexivity | discriminate]].
    split; [discriminate | intros [h [Hh _]]; discriminate].
Qed.

(** ** C10: missing measurements read as zero *)

(** C10. Decoding a row succeeds exactly when its two tag columns are
    strings and each measurement column is nil or a float64: a nil
    measurement is never an error.  In every reading that is returned, by
    the list handler and by the by-id handler alike, a measurement whose
    column is nil is 0.0 and a measurement whose column holds a float64 is
    that value, so all four measurements are always there. *)
Theorem missing_fields_read_as_zero (r : FluxRecord) :
  (wellTypedRow r = true <-> exists d, recordToSensorData r = Ret d) /\
  (forall d,
      recordToSensorData r = Ret d ->
      (ValueByKey r "temperature" = VNil -> Temperature d = 0%float) /\
      (forall f, ValueByKey r "temperature" = VFloat f -> Temperature d = f) /\
      (ValueByKey r "humidity" = VNil -> Humidity d = 0%float) /\
      (forall f, ValueByKey r "humidity" = VFloat f -> Humidity d = f) /\
      (ValueByKey r "pressure" = VNil -> Pressure d = 0%float) /\
      (forall f, ValueByKey r "pressure" = VFloat f -> Pressure d = f) /\
      (ValueByKey r "altitude" = VNil -> Altitude d = 0%float) /\
      (forall f, ValueByKey r "altitude" = VFloat f -> Altitude d = f) /\
      (forall app id o rest e,
          o_query o (getSensorDataByID_query app id) =
            Ok (mkQueryResult (r :: rest) e) ->
          fst (exec o (getSensorDataByID app id)) =
          Some (successReply StatusOK "Data retrieved successfully"
                  (DataReading d))) /\
      (forall app limit location o,
          o_query o (getSensorData_query app location (limitInt limit)) =
            Ok (mkQueryResult [r] None) ->
          fst (exec o (getSensorData app limit location)) =
          Some (successReply StatusOK "Data retrieved successfully"
                  (DataReadings [d])))).
Proof.
  rewrite recordToSensorData_spec. split.
  - destruct (wellTypedRow r).
    + split; [intros _; eexists; reflexivity | reflexivity].
    + split; [discriminate | intros [d Hd]; discriminate Hd].
  - intros d Hd. destruct (wellTypedRow r) eqn:Hr; [|discriminate Hd].
    injection Hd as <-.
    unfold readingOf. cbn [Temperature Humidity Pressure Altitude].
    repeat split; try (intros H; rewrite H; reflexivity);
      try (intros f H; rewrite H; reflexivity).
    + intros app id o rest e Hq. rewrite exec_getSensorDataByID. cbv zeta.
      rewrite Hq. cbn [rows]. rewrite Hr. reflexivity.
    + intros app limit location o Hq. rewrite exec_getSensorData. cbv zeta.
      rewrite Hq. cbn [rows iterErr forallb]. rewrite Hr. reflexivity.
Qed.

(** ** C8: the list query *)

(** C8. The list query is the printed pipeline that starts from the bucket
    and ranges over the last 24 hours; it has a location filter exactly when
    the location parameter is not empty, and then the filter is on that
    location; a failed Query call gives the 500 reply, and a result without
    rows and without error gives the success reply with no readings. *)
Theorem list_query_and_outcomes (app : App) (limit location : string) :
  let q := getSensorData_query app location (limitInt limit) in
  let fl := getSensorData_flux app location (limitInt limit) in
  q = print_flux fl /\
  (exists rest,
      stages_of fl = SFrom (bucket app) :: SRange (Hours 24) :: rest) /\
  ((exists v, In (SFilter "location" v) (stages_of fl)) <->
   location <> EmptyString) /\
  (forall v, In (SFilter "location" v) (stages_of fl) -> v = location) /\
  (forall o e,
      o_query o q = Err e ->
      fst (exec o (getSensorData app limit location)) =
      Some (errorReply StatusInternalServerError "Failed to query database")) /\
  (forall o,
      o_query o q = Ok (mkQueryResult [] None) ->
      fst (exec o (getSensorData app limit location)) =
      Some (successReply StatusOK "Data retrieved successfully"
              (DataReadings []))).
Proof.
  cbv zeta. split; [symmetry; apply getSensorData_flux_text |].
  split; [eexists; reflexivity |].
  split; [|split; [|split]].
  - unfold getSensorData_flux.
    destruct (String.eqb_spec location EmptyString) as [E|E];
      cbn [negb List.app stages_of In].
    + split; [|contradiction].
      intros [v Hv]. exfalso.
      repeat (destruct Hv as [Hv|Hv]; [discriminate Hv |]). exact Hv.
    + split; [intros _; exact E |].
      intros _. exists location. do 3 right. left. reflexivity.
  - intros v. unfold getSensorData_flux.
    destruct (String.eqb_spec location EmptyString) as [E|E];
      cbn [negb List.app stages_of In]; intros Hv.
    + exfalso.
      repeat (destruct Hv as [Hv|Hv]; [discriminate Hv |]). exact Hv.
    + destruct Hv as [Hv|[Hv|[Hv|[Hv|Hv]]]]; try discriminate Hv.
      * injection Hv as <-. reflexivity.
      * exfalso.
        repeat (destruct Hv as [Hv|Hv]; [discriminate Hv |]). exact Hv.
  - intros o e Hq. rewrite exec_getSensorData. cbv zeta. rewrite Hq.
    reflexivity.
  - intros o Hq. rewrite exec_getSensorData. cbv zeta. rewrite Hq.
    reflexivity.
Qed.

(** ** Sorting on time *)

Lemma insertDesc_In (r x : FluxRecord) (t : Table) :
  In x (insertDesc r t) <-> x = r \/ In x t.
Proof.
  induction t as [|y t IH]; simpl.
  - intuition.
  - destruct (timeOf y <? timeOf r) eqn:E; unfold timeOf in E; rewrite E;
      simpl; rewrite ?IH; intuition.
Qed.

Lemma sortDesc_In (x : FluxRecord) (t : Table) :
  In x (sortDesc t) <-> In x t.
Proof.
  induction t as [|y t IH]; simpl; [reflexivity |].
  rewrite insertDesc_In, IH. intuition.
Qed.

Lemma insertDesc_descending (r : FluxRecord) (t : Table) :
  descending t -> descending (insertDesc r t).
Proof.
  induction t as [|y t IH]; simpl.
  - intros _. split; [intros ? [] | exact I].
  - intros [Hy Ht]. fold (timeOf y) (timeOf r).
    destruct (Z.ltb_spec (timeOf y) (timeOf r)) as [E|E].
    + split; [|split; assumption].
      intros z [<-|Hz]; [lia | specialize (Hy z Hz); lia].
    + split; [|apply IH; exact Ht].
      intros z Hz. apply insertDesc_In in Hz as [->|Hz];
        [lia | apply Hy; exact Hz].
Qed.

Lemma sortDesc_descending (t : Table) : descending (sortDesc t).
Proof.
  induction t as [|y t IH]; simpl; [exact I |].
  apply insertDesc_descending, IH.
Qed.

(** The by-id pipeline yields nothing when no row matches, and otherwise
    exactly one row: a matching row that no matching row is newer than. *)
Lemma byID_pipeline_latest (now : Time) (source : string -> Table) (app : App)
  (id : string) :
  match runFlux now source (stages_of (getSensorDataByID_flux app id)) with
  | [] => forall r, ~ matchesByID now source app id r
  | [r] =>
      matchesByID now source app id r /\
      forall r', matchesByID now source app id r' -> timeOf r' <= timeOf r
  | _ => False
  end.
Proof.
  assert (Hin : forall x,
    In x (sortDesc
            (List.filter (columnIs "sensor_id" id)
               (List.filter (columnIs "_measurement" "sensor_readings")
                  (List.filter (inRange now (Days 30))
                     (source (bucket app)))))) <->
    matchesByID now source app id x).
  { intros x. rewrite sortDesc_In, !filter_In. unfold matchesByID. tauto. }
  cbn [getSensorDataByID_flux stages_of runFlux fold_left applyStage].
  change (Z.to_nat 1) with 1%nat.
  pose proof (sortDesc_descending
    (List.filter (columnIs "sensor_id" id)
       (List.filter (columnIs "_measurement" "sensor_readings")
          (List.filter (inRange now (Days 30)) (source (bucket app))))))
    as Hsorted.
  destruct (sortDesc _) as [|r rest]; cbn [take].
  - intros r Hr. apply Hin in Hr. destruct Hr.
  - destruct Hsorted as [Hmax _]. split.
    + apply Hin. left. reflexivity.
    + intros r' Hr'. apply Hin in Hr'. destruct Hr' as [<-|Hr'];
        [lia | apply Hmax; exact Hr'].
Qed.

(** ** What the write handlers do in any world *)

Lemma run_createSensorData {S : Type} (W : World S) (app : App)
  (data : SensorData) (s : S) :
  run W (createSensorData app (Ok data)) s =
  let '(now, s1) := askClock W (Timestamp data) s in
  let stored := createdReading now data in
  let '(err, s2) := w_write W (sensorPoint stored) s1 in
  match err with
  | Some e =>
      (Some (errorReply StatusInternalServerError "Failed to write to database"),
       w_log W e s2)
  | None =>
      (Some (successReply StatusCreated "Sensor data created successfully"
               (DataReading stored)), s2)
  end.
Proof.
  unfold createSensorData, askClock, createdReading.
  destruct (IsZero (Timestamp data)) eqn:Hz; cbn.
  - destruct (w_now W s) as [now s1]. cbn.
    destruct (w_write W _ s1) as [[e|] s2]; reflexivity.
  - destruct (w_write W _ s) as [[e|] s2]; reflexivity.
Qed.

Lemma run_updateSensorData {S : Type} (W : World S) (app : App) (id : string)
  (updateData : SensorData) (s : S) :
  run W (updateSensorData app id (Ok updateData)) s =
  let '(now, s1) := askClock W (Timestamp updateData) s in
  let stored := updatedReading now id updateData in
  let '(err, s2) := w_write W (sensorPoint stored) s1 in
  match err with
  | Some e =>
      (Some (errorReply StatusInternalServerError "Failed to update data"),
       w_log W e s2)
  | None =>
      (Some (successReply StatusOK "Sensor data updated successfully"
               (DataReading stored)), s2)
  end.
Proof.
  unfold updateSensorData, askClock, updatedReading.
  cbn [Timestamp setID].
  destruct (IsZero (Timestamp updateData)) eqn:Hz; cbn.
  - destruct (w_now W s) as [now s1]. cbn.
    destruct (w_write W _ s1) as [[e|] s2]; reflexivity.
  - destruct (w_write W _ s) as [[e|] s2]; reflexivity.
Qed.

Lemma createdReading_forced (now : Time) (id : string) (data : SensorData) :
  id <> EmptyString ->
  createdReading now (setID data id) = updatedReading now id data.
Proof.
  intros Hid. unfold createdReading, updatedReading.
  cbn [Timestamp setID].
  destruct (IsZero (Timestamp data)); cbn [ID setID setTimestamp];
    destruct (String.eqb_spec id EmptyString); [contradiction | reflexivity
                                               | contradiction | reflexivity].
Qed.

(** ** C2: what Create fills in *)

(** C2. For a decoded body, createSensorData writes the point of one
    reading and, when the write succeeds, echoes that same reading with
    status 201.  If the body's timestamp is zero the reading's timestamp is
    the clock's answer, and if the body's id is empty the reading's id is
    "sensor_" followed by the decimal Unix seconds of the reading's timestamp;
    a non-zero timestamp and a non-empty id are kept, and so are the
    measurements and the location. *)
Theorem create_fills_id_and_timestamp (app : App) (data : SensorData) (o : Oracle) :
  let stored := createdReading (o_now o) data in
  snd (exec o (createSensorData app (Ok data))) =
    (if IsZero (Timestamp data) then [EvNow] else []) ++
    EvWrite (sensorPoint stored) ::
    match o_write o (sensorPoint stored) with
    | Some e => [EvLog e]
    | None => []
    end /\
  tags (sensorPoint stored) =
    [("sensor_id", ID stored); ("location", Location stored)] /\
  ptime (sensorPoint stored) = Timestamp stored /\
  (o_write o (sensorPoint stored) = None ->
   fst (exec o (createSensorData app (Ok data))) =
   Some (successReply StatusCreated "Sensor data created successfully"
           (DataReading stored))) /\
  (IsZero (Timestamp data) = true -> ID data = EmptyString ->
   Timestamp stored = o_now o /\
   ID stored = "sensor_" +:+ fmt_d (Unix (o_now o))) /\
  (IsZero (Timestamp data) = true -> Timestamp stored = o_now o) /\
  (ID data = EmptyString ->
   ID stored = "sensor_" +:+ fmt_d (Unix (Timestamp stored))) /\
  (IsZero (Timestamp data) = false -> Timestamp stored = Timestamp data) /\
  (ID data <> EmptyString -> ID stored = ID data) /\
  Temperature stored = Temperature data /\
  Humidity stored = Humidity data /\
  Pressure stored = Pressure data /\
  Altitude stored = Altitude data /\
  Location stored = Location data.
Proof.
  cbv zeta. unfold exec. rewrite run_createSensorData.
  unfold askClock, createdReading. cbn [oracleWorld w_now w_write w_log].
  destruct data as [id ts te hu pr al lo]. cbn [Timestamp ID].
  destruct (IsZero ts) eqn:Hz;
    cbn [setTimestamp ID Timestamp Temperature Humidity Pressure Altitude
         Location];
    destruct (String.eqb_spec id EmptyString) as [Hid|Hid];
    cbn [setID ID Timestamp Temperature Humidity Pressure Altitude Location];
    (split; [destruct (o_write o _); reflexivity |]);
    (split; [reflexivity |]); (split; [reflexivity |]);
    (split; [intros Hw; rewrite Hw; reflexivity |]);
    repeat split; try reflexivity; try congruence.
Qed.

(** ** C6: Update against Create *)

Lemma pathID_nonempty (path id : string) :
  pathID path = Some id -> id <> EmptyString.
Proof.
  unfold pathID. destruct (strip_prefix _ path) as [i|]; [|discriminate].
  destruct (String.eqb_spec i EmptyString) as [E|E]; cbn [negb andb];
    [discriminate |].
  destruct (noSlash i); [|discriminate].
  intros H. injection H as <-. exact E.
Qed.

(** C6. For the id of any path the PUT route matches, updateSensorData on a
    request body runs, in every world, as createSensorData runs on the same
    body with the id overwritten by the path id: the same calls in the same
    states, so the same point written, and the same reply up to the success
    status and the two messages.  It makes no Query call, replies 400 on a
    body that does not decode and 500 when the write fails, as Create
    does. *)
Theorem update_is_create_with_forced_id (app : App) (path id : string)
  (reqBody : result SensorData) :
  pathID path = Some id ->
  (forall (S : Type) (W : World S) (s : S),
      run W (updateSensorData app id reqBody) s =
      let '(r, s') := run W (createSensorData app (forceID id reqBody)) s in
      (asUpdateReply <$> r, s')) /\
  (forall o,
      forallb (fun e => negb (isQuery e))
        (snd (exec o (updateSensorData app id reqBody))) = true) /\
  (forall o e,
      reqBody = Err e ->
      fst (exec o (updateSensorData app id reqBody)) =
        Some (errorReply StatusBadRequest "Invalid JSON format") /\
      fst (exec o (createSensorData app (forceID id reqBody))) =
        Some (errorReply StatusBadRequest "Invalid JSON format")) /\
  (forall o data e,
      reqBody = Ok data ->
      o_write o (sensorPoint (updatedReading (o_now o) id data)) = Some e ->
      statusCode <$> fst (exec o (updateSensorData app id reqBody)) =
        Some StatusInternalServerError /\
      statusCode <$> fst (exec o (createSensorData app (forceID id reqBody))) =
        Some StatusInternalServerError).
Proof.
  intros Hid. apply pathID_nonempty in Hid. split; [|split; [|split]].
  - intros S W s. destruct reqBody as [data|e]; [|reflexivity].
    cbn [forceID]. rewrite run_updateSensorData, run_createSensorData.
    cbn [Timestamp setID].
    destruct (askClock W (Timestamp data) s) as [now s1]. cbv zeta.
    rewrite (createdReading_forced now id data Hid).
    destruct (w_write W _ s1) as [[e|] s2]; reflexivity.
  - intros o. destruct reqBody as [data|e]; [|reflexivity].
    unfold exec. rewrite run_updateSensorData.
    unfold askClock. cbn [oracleWorld w_now w_write w_log].
    destruct (IsZero (Timestamp data));
      destruct (o_write o _); reflexivity.
  - intros o e ->. split; reflexivity.
  - intros o data e -> Hw. cbn [forceID]. unfold exec.
    rewrite run_updateSensorData, run_createSensorData.
    unfold askClock. cbn [oracleWorld w_now w_write w_log Timestamp setID].
    destruct (IsZero (Timestamp data)) eqn:Hz.
    + rewrite (createdReading_forced (o_now o) id data Hid), Hw.
      split; reflexivity.
    + rewrite (createdReading_forced (Timestamp data) id data Hid).
      assert (E : updatedReading (Timestamp data) id data =
                  updatedReading (o_now o) id data).
      { unfold updatedReading. cbn [Timestamp setID]. rewrite Hz.
        reflexivity. }
      rewrite E, Hw. split; reflexivity.
Qed.

Lemma update_is_create_with_forced_id_witness :
  run (storeWorld "sensor_data")
    (updateSensorData sampleApp "s1" (Ok sampleReading)) sampleStore =
  let '(r, s') :=
    run (storeWorld "sensor_data")
      (createSensorData sampleApp (Ok (setID sampleReading "s1"))) sampleStore in
  (asUpdateReply <$> r, s').
Proof.
  exact (proj1 (update_is_create_with_forced_id sampleApp
                  "/api/v1/sensor-data/s1" "s1" (Ok sampleReading) eq_refl)
           Store (storeWorld "sensor_data") sampleStore).
Defined.

(** ** C3: write, then fetch by id *)

Lemma getSensorDataByID_query_split (app : App) (id : string) :
  getSensorDataByID_query app id =
  byIdPrefix (bucket app) +:+ (id +:+ byIdSuffix).
Proof.
  unfold getSensorDataByID_query, byIdPrefix, byIdSuffix.
  rewrite ?append_assoc. reflexivity.
Qed.

Lemma queriedID_query (app : App) (id : string) :
  queriedID (bucket app) (getSensorDataByID_query app id) = Some id.
Proof.
  unfold queriedID.
  rewrite getSensorDataByID_query_split, strip_prefix_append.
  cbn [mbind option_bind]. apply strip_suffix_append.
Qed.

(** The row of a written point decodes to the reading it was built from. *)
Lemma rowOf_wellTyped (d : SensorData) :
  wellTypedRow (rowOf (sensorPoint d)) = true.
Proof. destruct d. reflexivity. Qed.

Lemma readingOf_rowOf (d : SensorData) :
  readingOf (rowOf (sensorPoint d)) = d.
Proof. destruct d. reflexivity. Qed.

Lemma hasSensorID_sensorPoint (d : SensorData) :
  hasSensorID (ID d) (sensorPoint d) = true.
Proof.
  unfold hasSensorID, sensorPoint. cbn. apply String.eqb_refl.
Qed.

(** C3. In the store that answers a by-id query with the newest written
    point of that sensor id, creating a reading from any decoded body
    succeeds, and fetching by the id of the created reading then succeeds
    with a reading whose temperature, humidity, pressure and altitude are the
    very values of the body (hence equal within any tolerance); id, timestamp
    and location are those of the created reading. *)
Theorem create_then_get_roundtrip (app : App) (s : Store) (data : SensorData) :
  let W := storeWorld (bucket app) in
  let created := run W (createSensorData app (Ok data)) s in
  exists stored fetched,
    fst created =
      Some (successReply StatusCreated "Sensor data created successfully"
              (DataReading stored)) /\
    fst (run W (getSensorDataByID app (ID stored)) (snd created)) =
      Some (successReply StatusOK "Data retrieved successfully"
              (DataReading fetched)) /\
    Temperature fetched = Temperature data /\
    Humidity fetched = Humidity data /\
    Pressure fetched = Pressure data /\
    Altitude fetched = Altitude data /\
    fetched = stored.
Proof.
  cbv zeta. rewrite run_createSensorData.
  destruct (askClock (storeWorld (bucket app)) (Timestamp data) s)
    as [now s1] eqn:Hclock.
  cbv zeta. cbn [storeWorld w_write fst snd].
  set (stored := createdReading now data).
  exists stored, stored.
  split; [reflexivity |].
  split.
  - unfold getSensorDataByID. cbn [mbind Handler_bind hbind call run answer].
    cbn [storeWorld w_query]. unfold storeQuery.
    rewrite queriedID_query. cbn [written List.find].
    rewrite hasSensorID_sensorPoint. cbn [rows hbind].
    rewrite recordToSensorData_spec, rowOf_wellTyped, readingOf_rowOf.
    reflexivity.
  - unfold stored, createdReading.
    destruct (IsZero (Timestamp data));
      cbn [ID setTimestamp];
      destruct (String.eqb (ID data) EmptyString);
      repeat split; reflexivity.
Qed.

(** ** C1: the order of the list pipeline *)

Lemma getSensorData_stages_tail (app : App) (location : string) (n : Z) :
  exists front,
    stages_of (getSensorData_flux app location n) =
    front ++ [SPivot; SLimit n; SSortDesc].
Proof.
  unfold getSensorData_flux.
  destruct (negb (String.eqb location EmptyString)); cbn [List.app stages_of].
  - exists [SFrom (bucket app); SRange (Hours 24);
            SFilter "_measurement" "sensor_readings";
            SFilter "location" location]. reflexivity.
  - exists [SFrom (bucket app); SRange (Hours 24);
            SFilter "_measurement" "sensor_readings"]. reflexivity.
Qed.

(** C1. The list query caps before it sorts.  For every request the
    printed pipeline ends with pivot, limit, sort.  For the sample
    application, no location filter and [limit=2], on one series of three
    readings taken at seconds 1001, 1002, 1003 the query sent returns the
    readings of 1002 and 1001, whereas the order the specification states
    returns the two most recent, 1003 and 1002. *)
Theorem list_query_caps_before_sorting :
  let now := mkTime 2000 0 in
  let source := fun _ : string => sampleTable in
  let n := limitInt "2" in
  let fl := getSensorData_flux sampleApp EmptyString n in
  (forall app limit location,
      print_flux (getSensorData_flux app location (limitInt limit)) =
        getSensorData_query app location (limitInt limit) /\
      exists front,
        stages_of (getSensorData_flux app location (limitInt limit)) =
        front ++ [SPivot; SLimit (limitInt limit); SSortDesc]) /\
  stages_of fl =
    [SFrom "sensor_data"; SRange (Hours 24);
     SFilter "_measurement" "sensor_readings";
     SPivot; SLimit 2; SSortDesc] /\
  map RecordTime (runFlux now source (stages_of fl)) =
    [mkTime 1002 0; mkTime 1001 0] /\
  map RecordTime (runFlux now source (specListStages sampleApp EmptyString n)) =
    [mkTime 1003 0; mkTime 1002 0].
Proof.
  cbv zeta. split.
  - intros app limit location.
    split; [apply getSensorData_flux_text | apply getSensorData_stages_tail].
  - split; [reflexivity |].
    split; vm_compute; reflexivity.
Qed.

(** ** The theorems at sample inputs *)

Lemma health_ok_iff_pass_witness :
  isSuccess (fst (exec sampleOracle (healthCheck sampleApp))) = true.
Proof.
  apply (proj1 (health_ok_iff_pass sampleApp sampleOracle)).
  exists (mkHealth "pass"). split; reflexivity.
Defined.

Lemma missing_fields_read_as_zero_witness :
  exists d,
    recordToSensorData sparseRow = Ret d /\
    Temperature d = 0%float /\ Humidity d = 40%float /\
    Altitude d = 0%float.
Proof.
  destruct (missing_fields_read_as_zero sparseRow) as [Hok Hfields].
  destruct (proj1 Hok eq_refl) as [d Hd].
  destruct (Hfields d Hd) as (Ht & _ & _ & Hh & _ & _ & Ha & _).
  exists d. split; [exact Hd |].
  split; [apply Ht; reflexivity |].
  split; [apply Hh; reflexivity | apply Ha; reflexivity].
Defined.

Lemma list_query_and_outcomes_witness :
  fst (exec sampleOracle (getSensorData sampleApp "10" "lab")) =
  Some (successReply StatusOK "Data retrieved successfully" (DataReadings [])).
Proof.
  apply (proj2 (proj2 (proj2 (proj2 (proj2
    (list_query_and_outcomes sampleApp "10" "lab")))))).
  reflexivity.
Defined.

Lemma create_fills_id_and_timestamp_witness :
  let stored := createdReading (o_now sampleOracle) sampleReading in
  Timestamp stored = mkTime 63900000000 5 /\
  ID stored = "sensor_1764403200".
Proof.
  cbv zeta.
  destruct (create_fills_id_and_timestamp sampleApp sampleReading sampleOracle)
    as (_ & _ & _ & _ & H & _).
  destruct (H eq_refl eq_refl) as [Ht Hi].
  split; [exact Ht | rewrite Hi; reflexivity].
Defined.

(** * Further properties of the handlers *)

(** ** Iteration errors and rows that do not decode *)

(** When rows were decoded and the iteration then stops with an error, the
    list handler discards them: the reply is the 500 error envelope without
    data, and the error is logged once. *)
Theorem list_discards_rows_on_iteration_error (app : App)
  (limit location : string) (o : Oracle) (result : QueryTableResult) (e : error) :
  o_query o (getSensorData_query app location (limitInt limit)) = Ok result ->
  forallb wellTypedRow (rows result) = true ->
  iterErr result = Some e ->
  fst (exec o (getSensorData app limit location)) =
    Some (errorReply StatusInternalServerError "Error processing query results") /\
  logsOf (snd (exec o (getSensorData app limit location))) = [e].
Proof.
  intros Hq Hrows Herr. rewrite exec_getSensorData. cbv zeta.
  rewrite Hq, Hrows, Herr. split; reflexivity.
Qed.

Lemma list_discards_rows_on_iteration_error_witness :
  let o := mkOracle zeroTime (fun _ => None)
             (fun _ => Ok (mkQueryResult [sampleRow "a" 1001] (Some "reset")))
             (Ok (mkHealth "pass")) in
  fst (exec o (getSensorData sampleApp "5" EmptyString)) =
    Some (errorReply StatusInternalServerError "Error processing query results").
Proof.
  cbv zeta.
  apply (list_discards_rows_on_iteration_error sampleApp "5" EmptyString
           (mkOracle zeroTime (fun _ => None)
              (fun _ => Ok (mkQueryResult [sampleRow "a" 1001] (Some "reset")))
              (Ok (mkHealth "pass")))
           (mkQueryResult [sampleRow "a" 1001] (Some "reset")) "reset");
    reflexivity.
Defined.

(** The list handler gives no reply at all (a type assertion panics) exactly
    when the query succeeds and some row, anywhere in the result, lacks a
    string tag or has a measurement that is neither nil nor a float64; one
    such row loses the whole listing, also when the iteration reports an
    error. *)
Theorem list_panics_iff_some_row_untyped (app : App) (limit location : string)
  (o : Oracle) :
  fst (exec o (getSensorData app limit location)) = None <->
  exists result r,
    o_query o (getSensorData_query app location (limitInt limit)) = Ok result /\
    In r (rows result) /\ wellTypedRow r = false.
Proof.
  rewrite exec_getSensorData. cbv zeta.
  destruct (o_query o _) as [result|e].
  - destruct (forallb wellTypedRow (rows result)) eqn:Hall.
    + split.
      * destruct (iterErr result); intros H; discriminate H.
      * intros (res & r & Hres & Hin & Hr). injection Hres as <-.
        rewrite forallb_forall in Hall. rewrite (Hall r Hin) in Hr.
        discriminate Hr.
    + split; [|reflexivity]. intros _.
      assert (Hex : existsb (fun r => negb (wellTypedRow r)) (rows result) = true).
      { clear -Hall. induction (rows result) as [|r rs IH]; [discriminate Hall |].
        simpl in *. destruct (wellTypedRow r); simpl in *; [auto | reflexivity]. }
      apply existsb_exists in Hex as [r [Hin Hr]].
      exists result, r. split; [reflexivity |]. split; [exact Hin |].
      destruct (wellTypedRow r); [discriminate Hr | reflexivity].
  - split; [intros H; discriminate H |].
    intros (res & r & Hres & _). discriminate Hres.
Qed.

(** ** What every reply looks like *)

Lemma exec_createSensorData (app : App) (data : SensorData) (o : Oracle) :
  exec o (createSensorData app (Ok data)) =
  let stored := createdReading (o_now o) data in
  let asked := if IsZero (Timestamp data) then [EvNow] else [] in
  match o_write o (sensorPoint stored) with
  | Some e =>
      (Some (errorReply StatusInternalServerError "Failed to write to database"),
       asked ++ [EvWrite (sensorPoint stored); EvLog e])
  | None =>
      (Some (successReply StatusCreated "Sensor data created successfully"
               (DataReading stored)),
       asked ++ [EvWrite (sensorPoint stored)])
  end.
Proof.
  unfold exec. rewrite run_createSensorData.
  unfold askClock, createdReading. cbn [oracleWorld w_now w_write w_log].
  destruct (IsZero (Timestamp data)); cbv zeta;
    destruct (o_write o _); reflexivity.
Qed.

Lemma exec_updateSensorData (app : App) (id : string) (data : SensorData)
  (o : Oracle) :
  exec o (updateSensorData app id (Ok data)) =
  let stored := updatedReading (o_now o) id data in
  let asked := if IsZero (Timestamp data) then [EvNow] else [] in
  match o_write o (sensorPoint stored) with
  | Some e =>
      (Some (errorReply StatusInternalServerError "Failed to update data"),
       asked ++ [EvWrite (sensorPoint stored); EvLog e])
  | None =>
      (Some (successReply StatusOK "Sensor data updated successfully"
               (DataReading stored)),
       asked ++ [EvWrite (sensorPoint stored)])
  end.
Proof.
  unfold exec. rewrite run_updateSensorData.
  unfold askClock, updatedReading. cbn [oracleWorld w_now w_write w_log].
  cbn [Timestamp setID].
  destruct (IsZero (Timestamp data)); cbv zeta;
    destruct (o_write o _); reflexivity.
Qed.

Lemma exec_healthCheck (app : App) (o : Oracle) :
  exec o (healthCheck app) =
  match o_health o with
  | Err e =>
      (Some (errorReply StatusServiceUnavailable "Database connection failed"),
       [EvHealth; EvLog e])
  | Ok h =>
      if String.eqb (HStatus h) "pass" then
        (Some (successReply StatusOK "Service is healthy"
                 (DataMap (<["status" := VString "healthy"]>
                           (<["timestamp" := VTime (o_now o)]>
                           (<["database" := VString "connected"]> ∅))))),
         [EvHealth; EvNow])
      else
        (Some (errorReply StatusServiceUnavailable "Database connection failed"),
         [EvHealth])
  end.
Proof.
  unfold exec, healthCheck. cbn.
  destruct (o_health o) as [h|e]; [|reflexivity].
  cbn. destruct (String.eqb (HStatus h) "pass"); reflexivity.
Qed.

(** Whatever the collaborators answer, a reply of any of the six handlers
    is JSON and is one of two envelopes: "success" with status 200 or 201
    and a payload, or "error" with a status of 400 or more, no payload and
    one of the eight fixed messages. *)
Theorem replies_are_one_of_two_envelopes (app : App) (o : Oracle) :
  (forall reqBody, shapeOK (fst (exec o (createSensorData app reqBody))) = true) /\
  (forall limit location,
      shapeOK (fst (exec o (getSensorData app limit location))) = true) /\
  (forall id, shapeOK (fst (exec o (getSensorDataByID app id))) = true) /\
  (forall id reqBody,
      shapeOK (fst (exec o (updateSensorData app id reqBody))) = true) /\
  (forall id reqBody,
      shapeOK (fst (exec o (deleteSensorData app id reqBody))) = true) /\
  shapeOK (fst (exec o (healthCheck app))) = true.
Proof.
  split; [|split; [|split; [|split; [|split]]]].
  - intros [data|e]; [|reflexivity].
    rewrite exec_createSensorData. cbv zeta.
    destruct (o_write o _); reflexivity.
  - intros limit location. rewrite exec_getSensorData. cbv zeta.
    destruct (o_query o _) as [result|e]; [|reflexivity].
    destruct (forallb wellTypedRow (rows result)); [|reflexivity].
    destruct (iterErr result); reflexivity.
  - intros id. rewrite exec_getSensorDataByID. cbv zeta.
    destruct (o_query o _) as [result|e]; [|reflexivity].
    destruct (rows result) as [|r rest]; [reflexivity |].
    destruct (wellTypedRow r); reflexivity.
  - intros id [data|e]; [|reflexivity].
    rewrite exec_updateSensorData. cbv zeta.
    destruct (o_write o _); reflexivity.
  - intros id reqBody. reflexivity.
  - rewrite exec_healthCheck.
    destruct (o_health o) as [h|e]; [|reflexivity].
    destruct (String.eqb (HStatus h) "pass"); reflexivity.
Qed.

(** No reply depends on the text of an error: blanking the text of every
    error the decoder or a collaborator returns leaves the reply of each of
    the six handlers unchanged.  Error details reach the log only. *)
Theorem replies_do_not_carry_error_text (app : App) (o : Oracle) :
  (forall reqBody,
      fst (exec (redact o) (createSensorData app (redactResult reqBody))) =
      fst (exec o (createSensorData app reqBody))) /\
  (forall limit location,
      fst (exec (redact o) (getSensorData app limit location)) =
      fst (exec o (getSensorData app limit location))) /\
  (forall id,
      fst (exec (redact o) (getSensorDataByID app id)) =
      fst (exec o (getSensorDataByID app id))) /\
  (forall id reqBody,
      fst (exec (redact o) (updateSensorData app id (redactResult reqBody))) =
      fst (exec o (updateSensorData app id reqBody))) /\
  fst (exec (redact o) (healthCheck app)) = fst (exec o (healthCheck app)).
Proof.
  split; [|split; [|split; [|split]]].
  - intros [data|e]; [|reflexivity]. cbn [redactResult].
    rewrite !exec_createSensorData. cbv zeta. cbn [redact o_now o_write].
    destruct (o_write o _); reflexivity.
  - intros limit location. rewrite !exec_getSensorData. cbv zeta.
    cbn [redact o_query].
    destruct (o_query o _) as [result|e]; [|reflexivity].
    cbn [redactQuery rows iterErr].
    destruct (forallb wellTypedRow (rows result)); [|reflexivity].
    destruct (iterErr result); reflexivity.
  - intros id. rewrite !exec_getSensorDataByID. cbv zeta.
    cbn [redact o_query].
    destruct (o_query o _) as [result|e]; [|reflexivity].
    cbn [redactQuery rows].
    destruct (rows result) as [|r rest]; [reflexivity |].
    destruct (wellTypedRow r); reflexivity.
  - intros id [data|e]; [|reflexivity]. cbn [redactResult].
    rewrite !exec_updateSensorData. cbv zeta. cbn [redact o_now o_write].
    destruct (o_write o _); reflexivity.
  - rewrite !exec_healthCheck. cbn [redact o_health o_now].
    destruct (o_health o) as [h|e]; [|reflexivity].
    cbn [redactResult]. destruct (String.eqb (HStatus h) "pass"); reflexivity.
Qed.

(** ** Which collaborators a handler calls *)

(** The read handlers make exactly one Query call and never write, ask the
    clock or probe health; the write handlers never query or probe health;
    the health handler never queries or writes; delete calls nothing. *)
Theorem handlers_call_only_their_collaborator (app : App) (o : Oracle) :
  (forall limit location,
      let evs := snd (exec o (getSensorData app limit location)) in
      queriesOf evs = [getSensorData_query app location (limitInt limit)] /\
      writesOf evs = [] /\ List.filter isHealthOrClock evs = []) /\
  (forall id,
      let evs := snd (exec o (getSensorDataByID app id)) in
      queriesOf evs = [getSensorDataByID_query app id] /\
      writesOf evs = [] /\ List.filter isHealthOrClock evs = []) /\
  (forall reqBody,
      let evs := snd (exec o (createSensorData app reqBody)) in
      queriesOf evs = [] /\ ~ In EvHealth evs) /\
  (forall id reqBody,
      let evs := snd (exec o (updateSensorData app id reqBody)) in
      queriesOf evs = [] /\ ~ In EvHealth evs) /\
  (let evs := snd (exec o (healthCheck app)) in
   queriesOf evs = [] /\ writesOf evs = []).
Proof.
  split; [|split; [|split; [|split]]].
  - intros limit location. cbv zeta. rewrite exec_getSensorData. cbv zeta.
    destruct (o_query o _) as [result|e]; [|repeat split].
    destruct (forallb wellTypedRow (rows result)); [|repeat split].
    destruct (iterErr result); repeat split.
  - intros id. cbv zeta. rewrite exec_getSensorDataByID. cbv zeta.
    destruct (o_query o _) as [result|e]; [|repeat split].
    destruct (rows result) as [|r rest]; [repeat split |].
    destruct (wellTypedRow r); repeat split.
  - intros [data|e]; cbv zeta.
    + rewrite exec_createSensorData. cbv zeta.
      destruct (IsZero (Timestamp data)); destruct (o_write o _);
        (split; [reflexivity |]); cbn; intuition discriminate.
    + split; [reflexivity |]. cbn. intuition discriminate.
  - intros id [data|e]; cbv zeta.
    + rewrite exec_updateSensorData. cbv zeta.
      destruct (IsZero (Timestamp data)); destruct (o_write o _);
        (split; [reflexivity |]); cbn; intuition discriminate.
    + split; [reflexivity |]. cbn. intuition discriminate.
  - cbv zeta. rewrite exec_healthCheck.
    destruct (o_health o) as [h|e]; [|split; reflexivity].
    destruct (String.eqb (HStatus h) "pass"); split; reflexivity.
Qed.

(** A write handler writes exactly one point when the body decodes, also
    when that write fails (no retry), and no point when it does not; the
    clock is asked only for a zero timestamp. *)
Theorem one_write_per_decoded_body (app : App) (id : string)
  (reqBody : result SensorData) (o : Oracle) :
  let created := snd (exec o (createSensorData app reqBody)) in
  let updated := snd (exec o (updateSensorData app id reqBody)) in
  match reqBody with
  | Ok data =>
      writesOf created = [sensorPoint (createdReading (o_now o) data)] /\
      writesOf updated = [sensorPoint (updatedReading (o_now o) id data)] /\
      (In EvNow created <-> IsZero (Timestamp data) = true) /\
      (In EvNow updated <-> IsZero (Timestamp data) = true)
  | Err e =>
      created = [EvLog e] /\ updated = [EvLog e]
  end.
Proof.
  cbv zeta. destruct reqBody as [data|e]; [|split; reflexivity].
  rewrite exec_createSensorData, exec_updateSensorData. cbv zeta.
  destruct (IsZero (Timestamp data));
    destruct (o_write o (sensorPoint (createdReading _ _)));
    destruct (o_write o (sensorPoint (updatedReading _ _ _)));
    cbn; repeat split; try reflexivity; intros; try discriminate;
    intuition discriminate.
Qed.

(** ** Decimal text and the limit parameter *)

Lemma digits_value_acc (d : Decimal.uint) (acc : positive) :
  digits_value (NilEmpty.string_of_uint d) (Z.pos acc) =
  Some (Z.pos (Pos.of_uint_acc d acc)).
Proof.
  revert acc. induction d as [|d IH|d IH|d IH|d IH|d IH|d IH|d IH|d IH|d IH|d IH];
    intro acc; [reflexivity | ..];
    cbn [NilEmpty.string_of_uint digits_value Pos.of_uint_acc];
    match goal with
    | |- context [digit_of ?c] =>
        let v := eval vm_compute in (digit_of c) in
        change (digit_of c) with v
    end;
    cbv iota beta; rewrite <- IH; f_equal; lia.
Qed.

Lemma digits_value_zero (d : Decimal.uint) :
  digits_value (NilEmpty.string_of_uint d) 0 = Some (Z.of_N (Pos.of_uint d)).
Proof.
  induction d as [|d IH|d IH|d IH|d IH|d IH|d IH|d IH|d IH|d IH|d IH];
    [reflexivity | exact IH | ..];
    cbn [NilEmpty.string_of_uint digits_value Pos.of_uint];
    match goal with
    | |- context [digit_of ?c] =>
        let v := eval vm_compute in (digit_of c) in
        change (digit_of c) with v
    end;
    cbv iota beta; cbn [Z.mul Z.add Z.of_N]; apply digits_value_acc.
Qed.

Lemma string_of_uint_head (d : Decimal.uint) :
  d <> Decimal.Nil ->
  exists c rest,
    NilEmpty.string_of_uint d = String c rest /\ is_sign c = false.
Proof.
  destruct d; [intros H; contradiction | ..]; intros _;
    eexists; eexists; (split; [reflexivity | reflexivity]).
Qed.

Lemma Atoi_fmt_d (n : Z) :
  minInt64 <= n <= maxInt64 -> Atoi (fmt_d n) = Some n.
Proof.
  intros Hn. destruct n as [|p|p].
  - reflexivity.
  - unfold fmt_d. cbn [Z.to_int NilZero.string_of_int].
    pose proof (DecimalPos.Unsigned.to_uint_nonnil p) as Hnil.
    pose proof (DecimalPos.Unsigned.of_to p) as Hof.
    assert (Hs : NilZero.string_of_uint (Pos.to_uint p) =
                 NilEmpty.string_of_uint (Pos.to_uint p)).
    { destruct (Pos.to_uint p); [contradiction | reflexivity ..]. }
    rewrite Hs.
    destruct (string_of_uint_head _ Hnil) as (c & rest & Hstr & Hc).
    pose proof (digits_value_zero (Pos.to_uint p)) as Hd.
    rewrite Hof in Hd. rewrite Hstr in *.
    unfold Atoi. rewrite Hc, Hd.
    assert (Hm : Ascii.eqb c "-"%char = false).
    { unfold is_sign in Hc. apply orb_false_iff in Hc. apply Hc. }
    rewrite Hm. cbn [Z.of_N].
    destruct (Z.leb_spec minInt64 (Z.pos p)); [|lia].
    destruct (Z.leb_spec (Z.pos p) maxInt64); [reflexivity | lia].
  - unfold fmt_d. cbn [Z.to_int NilZero.string_of_int].
    pose proof (DecimalPos.Unsigned.to_uint_nonnil p) as Hnil.
    pose proof (DecimalPos.Unsigned.of_to p) as Hof.
    assert (Hs : NilZero.string_of_uint (Pos.to_uint p) =
                 NilEmpty.string_of_uint (Pos.to_uint p)).
    { destruct (Pos.to_uint p); [contradiction | reflexivity ..]. }
    rewrite Hs.
    destruct (string_of_uint_head _ Hnil) as (c & rest & Hstr & Hc).
    pose proof (digits_value_zero (Pos.to_uint p)) as Hd.
    rewrite Hof in Hd. rewrite Hstr in *.
    unfold Atoi. cbn [is_sign Ascii.eqb Bool.eqb orb]. rewrite Hd.
    cbn [Z.of_N]. change (- Z.pos p) with (Z.neg p).
    destruct (Z.leb_spec minInt64 (Z.neg p)); [|lia].
    destruct (Z.leb_spec (Z.neg p) maxInt64); [reflexivity | lia].
Qed.

Lemma Atoi_range (s : string) (v : Z) :
  Atoi s = Some v -> minInt64 <= v <= maxInt64.
Proof.
  unfold Atoi. destruct s as [|c rest]; [discriminate |].
  destruct (if is_sign c then rest else String c rest); [discriminate |].
  destruct (digits_value _ 0) as [n|]; [|discriminate].
  destruct (Z.leb_spec minInt64 (if Ascii.eqb c "-"%char then - n else n))
    as [Hlo|_]; [|discriminate].
  destruct (Z.leb_spec (if Ascii.eqb c "-"%char then - n else n) maxInt64)
    as [Hhi|_]; [|discriminate].
  intros Hv. injection Hv as <-. split; assumption.
Qed.

Lemma fmt_d_inj (a b : Z) : fmt_d a = fmt_d b -> a = b.
Proof.
  unfold fmt_d. intros H.
  assert (Hi : forall z, NilZero.int_of_string (NilZero.string_of_int (Z.to_int z))
                         = Some (Z.to_int z)).
  { intros z. apply NilZero.isi; destruct z; cbn [Z.to_int]; intros E;
      try discriminate E; injection E as E;
      try (exact (DecimalPos.Unsigned.to_uint_nonnil _ E)). }
  apply DecimalZ.to_int_inj.
  pose proof (Hi a) as Ha. rewrite H, Hi in Ha. injection Ha as Ha.
  symmetry. exact Ha.
Qed.

(** Every integer from 1 to 2^63-1, written in decimal as [%d] prints it, is
    a limit parameter that is used as it is. *)
Theorem decimal_limit_is_used (n : Z) :
  1 <= n <= maxInt64 -> limitInt (fmt_d n) = n.
Proof.
  intros Hn.
  rewrite limitInt_cases, Atoi_fmt_d by (unfold minInt64; lia).
  destruct (Z.ltb_spec 0 n); [reflexivity | lia].
Qed.

Lemma decimal_limit_is_used_witness : limitInt (fmt_d 250) = 250.
Proof.
  apply (decimal_limit_is_used 250). unfold maxInt64. lia.
Defined.

(** ** The ids of written points *)

Lemma generated_id_nonempty (t : Time) :
  "sensor_" +:+ fmt_d (Unix t) <> EmptyString.
Proof. intros H. discriminate H. Qed.

Lemma createdReading_id_nonempty (now : Time) (data : SensorData) :
  ID (createdReading now data) <> EmptyString.
Proof.
  unfold createdReading.
  destruct (IsZero (Timestamp data)); cbn [ID setTimestamp];
    destruct (String.eqb_spec (ID data) EmptyString) as [E|E];
    cbn [ID setID setTimestamp]; try exact E; apply generated_id_nonempty.
Qed.

(** Every point createSensorData writes is tagged with a non-empty
    [sensor_id], whatever the body and the answers of the collaborators;
    the tag is the id echoed in the 201 reply. *)
Theorem created_points_have_an_id (app : App) (data : SensorData) (o : Oracle) :
  forallb taggedNonEmpty
    (writesOf (snd (exec o (createSensorData app (Ok data))))) = true /\
  map sensorIDOf (writesOf (snd (exec o (createSensorData app (Ok data))))) =
    [Some (ID (createdReading (o_now o) data))] /\
  (o_write o (sensorPoint (createdReading (o_now o) data)) = None ->
   exists stored,
     fst (exec o (createSensorData app (Ok data))) =
       Some (successReply StatusCreated "Sensor data created successfully"
               (DataReading stored)) /\
     ID stored = ID (createdReading (o_now o) data) /\
     ID stored <> EmptyString).
Proof.
  rewrite exec_createSensorData. cbv zeta.
  pose proof (createdReading_id_nonempty (o_now o) data) as Hid.
  assert (Ht : taggedNonEmpty (sensorPoint (createdReading (o_now o) data)) = true).
  { unfold taggedNonEmpty, sensorIDOf, sensorPoint. cbn.
    destruct (String.eqb_spec (ID (createdReading (o_now o) data)) EmptyString);
      [contradiction | reflexivity]. }
  destruct (o_write o _) as [e|];
    destruct (IsZero (Timestamp data)); cbn [snd fst List.app writesOf forallb map];
    rewrite Ht;
    (split; [reflexivity |]); (split; [reflexivity |]);
    intros Hw; try discriminate Hw;
    eexists; (split; [reflexivity |]); (split; [reflexivity | exact Hid]).
Qed.

(** For the id of any path the PUT route matches, the point
    updateSensorData writes is tagged with that id, whatever id the body
    carries; the body's own id is ignored throughout. *)
Theorem update_tags_with_path_id (app : App) (path id bodyID : string)
  (data : SensorData) (o : Oracle) :
  pathID path = Some id ->
  map sensorIDOf
    (writesOf (snd (exec o (updateSensorData app id (Ok (setID data bodyID)))))) =
    [Some id] /\
  id <> EmptyString /\
  exec o (updateSensorData app id (Ok (setID data bodyID))) =
  exec o (updateSensorData app id (Ok data)).
Proof.
  intros Hp. apply pathID_nonempty in Hp.
  rewrite !exec_updateSensorData. cbv zeta.
  assert (E : updatedReading (o_now o) id (setID data bodyID) =
              updatedReading (o_now o) id data) by reflexivity.
  rewrite E. cbn [Timestamp setID].
  split; [|split; [exact Hp | reflexivity]].
  assert (Hs : sensorIDOf (sensorPoint (updatedReading (o_now o) id data)) = Some id).
  { unfold updatedReading. cbn [Timestamp setID].
    destruct (IsZero (Timestamp data)); reflexivity. }
  destruct (o_write o _); destruct (IsZero (Timestamp data));
    cbn [snd List.app writesOf map]; rewrite Hs; reflexivity.
Qed.

Lemma update_tags_with_path_id_witness :
  map sensorIDOf
    (writesOf (snd (exec sampleOracle
       (updateSensorData sampleApp "s1" (Ok (setID sampleReading "other")))))) =
  [Some "s1"].
Proof.
  apply (update_tags_with_path_id sampleApp "/api/v1/sensor-data/s1" "s1"
           "other" sampleReading sampleOracle eq_refl).
Defined.

(** Two bodies without id get the same generated id exactly when the Unix
    seconds of their (supplied or defaulted) timestamps are equal: the id
    ignores nanoseconds, so two readings created within one second share
    it. *)
Theorem generated_ids_collide_within_a_second (now1 now2 : Time)
  (d1 d2 : SensorData) :
  ID d1 = EmptyString -> ID d2 = EmptyString ->
  (ID (createdReading now1 d1) = ID (createdReading now2 d2) <->
   Unix (Timestamp (createdReading now1 d1)) =
   Unix (Timestamp (createdReading now2 d2))) /\
  (sec (Timestamp (createdReading now1 d1)) =
   sec (Timestamp (createdReading now2 d2)) ->
   ID (createdReading now1 d1) = ID (createdReading now2 d2)).
Proof.
  intros H1 H2.
  assert (E : forall now d, ID d = EmptyString ->
            ID (createdReading now d) =
              "sensor_" +:+ fmt_d (Unix (Timestamp (createdReading now d))) /\
            True).
  { intros now d Hd. split; [|exact I]. unfold createdReading.
    destruct (IsZero (Timestamp d)); cbn [ID setTimestamp]; rewrite Hd;
      reflexivity. }
  destruct (E now1 d1 H1) as [E1 _]. destruct (E now2 d2 H2) as [E2 _].
  rewrite E1, E2. split.
  - split.
    + intros H. apply fmt_d_inj.
      change ("sensor_" +:+ fmt_d (Unix (Timestamp (createdReading now1 d1))))
        with (String "s" (String "e" (String "n" (String "s" (String "o"
               (String "r" (String "_"
                 (fmt_d (Unix (Timestamp (createdReading now1 d1)))))))))))
        in H.
      change ("sensor_" +:+ fmt_d (Unix (Timestamp (createdReading now2 d2))))
        with (String "s" (String "e" (String "n" (String "s" (String "o"
               (String "r" (String "_"
                 (fmt_d (Unix (Timestamp (createdReading now2 d2)))))))))))
        in H.
      congruence.
    + intros ->. reflexivity.
  - intros Hs. unfold Unix. rewrite Hs. reflexivity.
Qed.

Lemma generated_ids_collide_within_a_second_witness :
  ID (createdReading (mkTime 63900000000 5) sampleReading) =
  ID (createdReading (mkTime 63900000000 999999999) sampleReading).
Proof.
  apply (proj2 (generated_ids_collide_within_a_second
           (mkTime 63900000000 5) (mkTime 63900000000 999999999)
           sampleReading sampleReading eq_refl eq_refl)).
  reflexivity.
Defined.

(** ** Handlers composed over the store model *)

Lemma run_store_create (app : App) (s : Store) (data : SensorData) :
  run (storeWorld (bucket app)) (createSensorData app (Ok data)) s =
  (Some (successReply StatusCreated "Sensor data created successfully"
           (DataReading (createdReading (clock s) data))),
   mkStore (clock s) (sensorPoint (createdReading (clock s) data) :: written s)
     (logged s)).
Proof.
  rewrite run_createSensorData. unfold askClock, createdReading.
  cbn [storeWorld w_now w_write].
  destruct (IsZero (Timestamp data)); cbv zeta; reflexivity.
Qed.

Lemma run_store_update (app : App) (s : Store) (id : string) (data : SensorData) :
  run (storeWorld (bucket app)) (updateSensorData app id (Ok data)) s =
  (Some (successReply StatusOK "Sensor data updated successfully"
           (DataReading (updatedReading (clock s) id data))),
   mkStore (clock s) (sensorPoint (updatedReading (clock s) id data) :: written s)
     (logged s)).
Proof.
  rewrite run_updateSensorData. unfold askClock, updatedReading.
  cbn [storeWorld w_now w_write Timestamp setID].
  destruct (IsZero (Timestamp data)) eqn:Hz; cbv zeta; reflexivity.
Qed.

Lemma run_store_getByID (app : App) (s : Store) (id : string) :
  run (storeWorld (bucket app)) (getSensorDataByID app id) s =
  match List.find (hasSensorID id) (written s) with
  | Some p =>
      if wellTypedRow (rowOf p) then
        (Some (successReply StatusOK "Data retrieved successfully"
                 (DataReading (readingOf (rowOf p)))), s)
      else (None, s)
  | None => (Some (errorReply StatusNotFound "Sensor data not found"), s)
  end.
Proof.
  unfold getSensorDataByID. cbn [mbind Handler_bind hbind call run answer].
  cbn [storeWorld w_query]. unfold storeQuery. rewrite queriedID_query.
  destruct (List.find (hasSensorID id) (written s)) as [p|]; [|reflexivity].
  cbn [rows hbind]. rewrite recordToSensorData_spec.
  destruct (wellTypedRow (rowOf p)); reflexivity.
Qed.

Lemma hasSensorID_reading (id : string) (d : SensorData) :
  hasSensorID id (sensorPoint d) = String.eqb (ID d) id.
Proof. reflexivity. Qed.

Lemma updatedReading_ID (now : Time) (id : string) (data : SensorData) :
  ID (updatedReading now id data) = id.
Proof.
  unfold updatedReading. cbn [Timestamp setID].
  destruct (IsZero (Timestamp data)); reflexivity.
Qed.

(** In the store model, creating a reading or updating under another id
    does not change what a fetch of a different id returns. *)
Theorem writes_leave_other_ids_alone (app : App) (s : Store) (id other : string)
  (data : SensorData) :
  let W := storeWorld (bucket app) in
  (ID (createdReading (clock s) data) <> id ->
   fst (run W (getSensorDataByID app id)
          (snd (run W (createSensorData app (Ok data)) s))) =
   fst (run W (getSensorDataByID app id) s)) /\
  (other <> id ->
   fst (run W (getSensorDataByID app id)
          (snd (run W (updateSensorData app other (Ok data)) s))) =
   fst (run W (getSensorDataByID app id) s)).
Proof.
  cbv zeta. split; intros Hne.
  - rewrite run_store_create. cbn [snd]. rewrite !run_store_getByID.
    cbn [written List.find]. rewrite hasSensorID_reading.
    destruct (String.eqb_spec (ID (createdReading (clock s) data)) id);
      [contradiction |].
    destruct (List.find (hasSensorID id) (written s)) as [p|]; [|reflexivity].
    destruct (wellTypedRow (rowOf p)); reflexivity.
  - rewrite run_store_update. cbn [snd]. rewrite !run_store_getByID.
    cbn [written List.find]. rewrite hasSensorID_reading, updatedReading_ID.
    destruct (String.eqb_spec other id); [contradiction |].
    destruct (List.find (hasSensorID id) (written s)) as [p|]; [|reflexivity].
    destruct (wellTypedRow (rowOf p)); reflexivity.
Qed.

Lemma writes_leave_other_ids_alone_witness :
  fst (run (storeWorld "sensor_data") (getSensorDataByID sampleApp "s1")
         (snd (run (storeWorld "sensor_data")
                 (updateSensorData sampleApp "s2" (Ok sampleReading))
                 sampleStore))) =
  fst (run (storeWorld "sensor_data") (getSensorDataByID sampleApp "s1")
         sampleStore).
Proof.
  apply (proj2 (writes_leave_other_ids_alone sampleApp sampleStore "s1" "s2"
                  sampleReading)).
  discriminate.
Defined.

(** In the store model, two bodies without id and timestamp created within
    the same second are echoed the same generated id, and a fetch of that id
    then returns the second reading: the first is no longer reachable by
    id. *)
Theorem same_second_creates_shadow (app : App) (s : Store) (t2 : Time)
  (d1 d2 : SensorData) :
  ID d1 = EmptyString -> ID d2 = EmptyString ->
  IsZero (Timestamp d1) = true -> IsZero (Timestamp d2) = true ->
  sec t2 = sec (clock s) ->
  let W := storeWorld (bucket app) in
  let first := run W (createSensorData app (Ok d1)) s in
  let second := run W (createSensorData app (Ok d2)) (setClock t2 (snd first)) in
  exists r1 r2,
    fst first = Some (successReply StatusCreated
                        "Sensor data created successfully" (DataReading r1)) /\
    fst second = Some (successReply StatusCreated
                         "Sensor data created successfully" (DataReading r2)) /\
    ID r1 = ID r2 /\
    Temperature r2 = Temperature d2 /\
    fst (run W (getSensorDataByID app (ID r1)) (snd second)) =
      Some (successReply StatusOK "Data retrieved successfully" (DataReading r2)).
Proof.
  intros H1 H2 Hz1 Hz2 Hsec. cbv zeta.
  rewrite run_store_create. cbn [snd fst].
  rewrite run_store_create. cbn [snd fst setClock clock written].
  exists (createdReading (clock s) d1), (createdReading t2 d2).
  assert (Hid : ID (createdReading (clock s) d1) = ID (createdReading t2 d2)).
  { unfold createdReading. rewrite Hz1, Hz2. cbn [ID setTimestamp].
    rewrite H1, H2. cbn [String.eqb ID setID Timestamp setTimestamp].
    unfold Unix. rewrite Hsec. reflexivity. }
  split; [reflexivity |]. split; [reflexivity |]. split; [exact Hid |].
  split.
  - unfold createdReading. rewrite Hz2. cbn [ID setTimestamp]. rewrite H2.
    reflexivity.
  - rewrite run_store_getByID. cbn [written List.find].
    rewrite hasSensorID_reading, Hid, String.eqb_refl.
    rewrite rowOf_wellTyped, readingOf_rowOf. reflexivity.
Qed.

Lemma same_second_creates_shadow_witness :
  let W := storeWorld "sensor_data" in
  let first := run W (createSensorData sampleApp (Ok sampleReading)) sampleStore in
  let second :=
    run W (createSensorData sampleApp (Ok (setTemperature sampleReading 30%float)))
      (setClock (mkTime 63900000000 700) (snd first)) in
  exists r1 r2,
    fst first = Some (successReply StatusCreated
                        "Sensor data created successfully" (DataReading r1)) /\
    fst second = Some (successReply StatusCreated
                         "Sensor data created successfully" (DataReading r2)) /\
    ID r1 = ID r2 /\
    Temperature r2 = 30%float /\
    fst (run W (getSensorDataByID sampleApp (ID r1)) (snd second)) =
      Some (successReply StatusOK "Data retrieved successfully" (DataReading r2)).
Proof.
  exact (same_second_creates_shadow sampleApp sampleStore
           (mkTime 63900000000 700) sampleReading
           (setTemperature sampleReading 30%float)
           eq_refl eq_refl eq_refl eq_refl eq_refl).
Defined.

(** ** Column names written and read *)

(** The tag and field names createSensorData and updateSensorData write are
    the column names the read handlers look up: the row of a written point
    decodes, without a panic, to exactly the reading the point was built
    from, so different readings never give the same point. *)
Theorem written_columns_are_the_columns_read (d : SensorData) :
  recordToSensorData (rowOf (sensorPoint d)) = Ret d /\
  RecordTime (rowOf (sensorPoint d)) = Timestamp d /\
  ValueByKey (rowOf (sensorPoint d)) "sensor_id" = VString (ID d) /\
  ValueByKey (rowOf (sensorPoint d)) "location" = VString (Location d) /\
  forall d', sensorPoint d = sensorPoint d' -> d = d'.
Proof.
  split; [|split; [|split; [|split]]].
  - rewrite recordToSensorData_spec, rowOf_wellTyped, readingOf_rowOf.
    reflexivity.
  - destruct d. reflexivity.
  - destruct d. reflexivity.
  - destruct d. reflexivity.
  - intros d' H. rewrite <- (readingOf_rowOf d), <- (readingOf_rowOf d'), H.
    reflexivity.
Qed.

(** Two by-id queries have the same text exactly when they ask for the same
    id: the id can be read back from the text. *)
Theorem byID_query_determines_id (app : App) (id1 id2 : string) :
  (getSensorDataByID_query app id1 = getSensorDataByID_query app id2 <->
   id1 = id2) /\
  queriedID (bucket app) (getSensorDataByID_query app id1) = Some id1.
Proof.
  split; [|apply queriedID_query].
  split; [|intros ->; reflexivity].
  intros H. apply (f_equal (queriedID (bucket app))) in H.
  rewrite !queriedID_query in H. injection H as H. exact H.
Qed.

(** ** What the list pipeline returns *)

Lemma insertDesc_length (r : FluxRecord) (t : Table) :
  length (insertDesc r t) = S (length t).
Proof.
  induction t as [|x t IH]; simpl; [reflexivity |].
  destruct (nanos (RecordTime x) <? nanos (RecordTime r)); simpl;
    [reflexivity | now rewrite IH].
Qed.

Lemma sortDesc_length (t : Table) : length (sortDesc t) = length t.
Proof.
  induction t as [|x t IH]; simpl; [reflexivity |].
  now rewrite insertDesc_length, IH.
Qed.

Lemma In_take (n : nat) (t : Table) (r : FluxRecord) :
  In r (take n t) -> In r t.
Proof.
  revert t. induction n as [|n IH]; intros [|x t]; simpl; try tauto.
  intros [->|H]; [left; reflexivity | right; apply IH, H].
Qed.

(** ** The CORS middleware *)

Lemma run_bind {S A B : Type} (W : World S) (h : Handler A)
  (f : A -> Handler B) (s : S) :
  run W (h ≫= f) s =
  match run W h s with
  | (Some a, s') => run W (f a) s'
  | (None, s') => (None, s')
  end.
Proof.
  revert s. induction h as [a| |c k IH]; intro s; try reflexivity.
  change (run W (Vis c k ≫= f) s)
    with (let '(x, s') := answer W c s in run W (k x ≫= f) s').
  cbn [run]. destruct (answer W c s) as [x s']. apply IH.
Qed.

(** An OPTIONS request never reaches the wrapped handler: whatever that
    handler is, on a fresh writer the middleware sends status 200 with the
    three CORS headers and an empty body, and no collaborator is called. *)
Theorem cors_answers_options_itself (next : HTTPHandler) (r : Request) :
  Method r = "OPTIONS" ->
  corsMiddleware next r newWriter =
    Ret (mkWriter corsHeaders (Some StatusOK) []) /\
  (forall (S : Type) (W : World S) (s : S),
      run W (corsMiddleware next r newWriter) s =
      (Some (mkWriter corsHeaders (Some StatusOK) []), s)) /\
  forall o, snd (exec o (corsMiddleware next r newWriter)) = [].
Proof.
  intros Hm.
  assert (E : corsMiddleware next r newWriter =
              Ret (mkWriter corsHeaders (Some StatusOK) [])).
  { unfold corsMiddleware. rewrite Hm. reflexivity. }
  split; [exact E |].
  split; [intros S W s | intros o; unfold exec]; rewrite E; reflexivity.
Qed.

Lemma cors_answers_options_itself_witness :
  corsMiddleware (createRoute sampleApp)
    (mkRequest "OPTIONS" ∅ ∅ (Ok sampleReading)) newWriter =
  Ret (mkWriter corsHeaders (Some StatusOK) []).
Proof.
  apply (proj1 (cors_answers_options_itself (createRoute sampleApp)
                  (mkRequest "OPTIONS" ∅ ∅ (Ok sampleReading)) eq_refl)).
Defined.

(** For any other method, a handler of the gateway behind the middleware
    calls its collaborators as it does alone, and what goes on the wire is
    its reply (status, JSON content type and envelope) with the three CORS
    headers added, on error replies as on success replies; a panic of the
    handler stays a panic. *)
Theorem cors_adds_headers_to_every_reply (h : Request -> Handler HttpResponse)
  (r : Request) (S : Type) (W : World S) (s : S) :
  Method r <> "OPTIONS" ->
  run W (corsMiddleware (serveReply h) r newWriter) s =
  match run W (h r) s with
  | (Some reply, s') =>
      (Some (mkWriter (<["Content-Type" := contentType reply]> corsHeaders)
               (Some (statusCode reply)) [EncResponse (body reply)]), s')
  | (None, s') => (None, s')
  end.
Proof.
  intros Hm. unfold corsMiddleware.
  destruct (String.eqb_spec (Method r) "OPTIONS") as [E|_]; [contradiction |].
  unfold serveReply. rewrite run_bind.
  destruct (run W (h r) s) as [[reply|] s']; reflexivity.
Qed.

Lemma cors_adds_headers_to_every_reply_witness :
  fst (run (storeWorld "sensor_data")
         (corsMiddleware (deleteRoute sampleApp)
            (mkRequest "DELETE" ∅ (<["id" := "s1"]> ∅) (Err "EOF")) newWriter)
         sampleStore) =
  Some (mkWriter (<["Content-Type" := "application/json"]> corsHeaders)
          (Some StatusNotImplemented)
          [EncResponse
             (mkResponse "error"
                "Delete operation not implemented for time series data"
                NoData)]).
Proof.
  unfold deleteRoute.
  rewrite (cors_adds_headers_to_every_reply _
             (mkRequest "DELETE" ∅ (<["id" := "s1"]> ∅) (Err "EOF"))
             Store (storeWorld "sensor_data") sampleStore);
    [reflexivity | discriminate].
Defined.

(** ** Start-up *)

Lemma getEnv_nonempty (env : Environ) (key defaultValue : string) :
  defaultValue <> EmptyString -> getEnv env key defaultValue <> EmptyString.
Proof.
  intros Hd. unfold getEnv.
  destruct (String.eqb_spec (Getenv env key) EmptyString) as [E|E];
    cbn [negb]; assumption.
Qed.

Lemma getEnv_token (env : Environ) :
  getEnv env "INFLUXDB_TOKEN" EmptyString = Getenv env "INFLUXDB_TOKEN".
Proof.
  unfold getEnv.
  destruct (String.eqb_spec (Getenv env "INFLUXDB_TOKEN") EmptyString) as [E|E];
    cbn [negb]; [symmetry; exact E | reflexivity].
Qed.

(** main contacts the store exactly when INFLUXDB_TOKEN is set to a
    non-empty value: without a token it ends with the fatal line before any
    call.  It reaches the listening server exactly when, in addition, the
    health probe succeeds with status "pass". *)
Theorem main_needs_token_and_healthy_store (env : Environ) (o : Oracle) :
  (Getenv env "INFLUXDB_TOKEN" = EmptyString ->
   exec o (main env) =
   (Some (Fatal "INFLUXDB_TOKEN environment variable is required"), [])) /\
  (Getenv env "INFLUXDB_TOKEN" <> EmptyString ->
   snd (exec o (main env)) = [EvHealth]) /\
  ((exists lg url token app addr,
       fst (exec o (main env)) = Some (Serving lg url token app addr)) <->
   Getenv env "INFLUXDB_TOKEN" <> EmptyString /\
   exists h, o_health o = Ok h /\ HStatus h = "pass").
Proof.
  unfold exec, main. rewrite getEnv_token.
  destruct (String.eqb_spec (Getenv env "INFLUXDB_TOKEN") EmptyString) as [E|E].
  - split; [intros _; reflexivity |].
    split; [intros H; contradiction |].
    split.
    + intros (lg & url & token & app & addr & H). discriminate H.
    + intros [H _]. contradiction.
  - split; [intros H; contradiction |]. cbn.
    destruct (o_health o) as [h|e]; cbn.
    + destruct (String.eqb_spec (HStatus h) "pass") as [P|P]; cbn.
      * split; [reflexivity |]. split.
        -- intros _. split; [exact E |]. exists h. split; [reflexivity | exact P].
        -- intros _. do 5 eexists. reflexivity.
      * split; [reflexivity |]. split.
        -- intros (lg & url & token & app & addr & H). discriminate H.
        -- intros [_ (h' & Hh & Hp)]. injection Hh as <-. contradiction.
    + split; [reflexivity |]. split.
      * intros (lg & url & token & app & addr & H). discriminate H.
      * intros [_ (h' & Hh & _)]. discriminate Hh.
Qed.

Lemma main_needs_token_and_healthy_store_witness :
  exec sampleOracle (main (<["INFLUXDB_TOKEN" := EmptyString]> ∅)) =
  (Some (Fatal "INFLUXDB_TOKEN environment variable is required"), []).
Proof.
  apply (proj1 (main_needs_token_and_healthy_store
                  (<["INFLUXDB_TOKEN" := EmptyString]> ∅) sampleOracle)).
  reflexivity.
Defined.

(** When main reaches the listening server, the application's bucket and
    organisation, the client's URL and the listen address are the values of
    their environment variables, or the defaults when a variable is unset
    or set to the empty string; so none of them is ever empty, and the token
    is the non-empty value of INFLUXDB_TOKEN. *)
Theorem served_configuration_has_no_empty_value (env : Environ) (o : Oracle)
  (lg : list string) (url token : string) (app : App) (addr : string) :
  fst (exec o (main env)) = Some (Serving lg url token app addr) ->
  bucket app = getEnv env "INFLUXDB_BUCKET" "sensor_data" /\
  org app = getEnv env "INFLUXDB_ORG" "myorg" /\
  url = getEnv env "INFLUXDB_URL" "http://influxdb:8086" /\
  addr = ":" +:+ getEnv env "PORT" "8080" /\
  token = Getenv env "INFLUXDB_TOKEN" /\
  bucket app <> EmptyString /\ org app <> EmptyString /\
  url <> EmptyString /\ token <> EmptyString /\
  (Getenv env "INFLUXDB_BUCKET" = EmptyString -> bucket app = "sensor_data") /\
  (Getenv env "INFLUXDB_BUCKET" <> EmptyString ->
   bucket app = Getenv env "INFLUXDB_BUCKET").
Proof.
  unfold exec, main. rewrite getEnv_token.
  destruct (String.eqb_spec (Getenv env "INFLUXDB_TOKEN") EmptyString) as [E|E];
    [intros H; discriminate H |].
  cbn. destruct (o_health o) as [h|e]; cbn; [|intros H; discriminate H].
  destruct (String.eqb (HStatus h) "pass"); cbn; [|intros H; discriminate H].
  intros H. injection H as <- <- <- <- <-. cbn [bucket org].
  repeat split; try reflexivity; try exact E;
    try (apply getEnv_nonempty; discriminate).
  - intros Hb. unfold getEnv. rewrite Hb. reflexivity.
  - intros Hb. unfold getEnv.
    destruct (String.eqb_spec (Getenv env "INFLUXDB_BUCKET") EmptyString);
      [contradiction | reflexivity].
Qed.

Lemma served_configuration_has_no_empty_value_witness :
  let env : Environ :=
    <["INFLUXDB_TOKEN" := "secret"]> (<["INFLUXDB_BUCKET" := EmptyString]> ∅) in
  bucket (mkApp (getEnv env "INFLUXDB_BUCKET" "sensor_data")
                (getEnv env "INFLUXDB_ORG" "myorg")) = "sensor_data".
Proof.
  cbv zeta.
  set (env := <["INFLUXDB_TOKEN" := "secret"]>
                (<["INFLUXDB_BUCKET" := EmptyString]> ∅) : Environ).
  destruct (served_configuration_has_no_empty_value env sampleOracle
              [ "Successfully connected to InfluxDB";
                "Server starting on port 8080" ]
              "http://influxdb:8086" "secret"
              (mkApp (getEnv env "INFLUXDB_BUCKET" "sensor_data")
                     (getEnv env "INFLUXDB_ORG" "myorg"))
              ":8080" eq_refl)
    as (_ & _ & _ & _ & _ & _ & _ & _ & _ & Hb & _).
  apply Hb. reflexivity.
Defined.

(** ** What reaches the log *)

(** A request logs exactly the error it met, once: the decoder's error for a
    body that does not decode, the error of the failed write, query or
    health probe, or the iteration error of a listing.  Replies 404 and 501,
    a health status other than "pass", and a panic log nothing. *)
Theorem log_holds_exactly_the_error_met (app : App) (o : Oracle) :
  (forall reqBody,
      logsOf (snd (exec o (createSensorData app reqBody))) =
      match reqBody with
      | Err e => [e]
      | Ok data =>
          match o_write o (sensorPoint (createdReading (o_now o) data)) with
          | Some e => [e]
          | None => []
          end
      end) /\
  (forall id reqBody,
      logsOf (snd (exec o (updateSensorData app id reqBody))) =
      match reqBody with
      | Err e => [e]
      | Ok data =>
          match o_write o (sensorPoint (updatedReading (o_now o) id data)) with
          | Some e => [e]
          | None => []
          end
      end) /\
  (forall limit location,
      logsOf (snd (exec o (getSensorData app limit location))) =
      match o_query o (getSensorData_query app location (limitInt limit)) with
      | Err e => [e]
      | Ok result =>
          if forallb wellTypedRow (rows result) then
            match iterErr result with
            | Some e => [e]
            | None => []
            end
          else []
      end) /\
  (forall id,
      logsOf (snd (exec o (getSensorDataByID app id))) =
      match o_query o (getSensorDataByID_query app id) with
      | Err e => [e]
      | Ok _ => []
      end) /\
  (forall id reqBody,
      logsOf (snd (exec o (deleteSensorData app id reqBody))) = []) /\
  logsOf (snd (exec o (healthCheck app))) =
    match o_health o with
    | Err e => [e]
    | Ok _ => []
    end.
Proof.
  split; [|split; [|split; [|split; [|split]]]].
  - intros [data|e]; [|reflexivity].
    rewrite exec_createSensorData. cbv zeta.
    destruct (o_write o _); destruct (IsZero (Timestamp data)); reflexivity.
  - intros id [data|e]; [|reflexivity].
    rewrite exec_updateSensorData. cbv zeta.
    destruct (o_write o _); destruct (IsZero (Timestamp data)); reflexivity.
  - intros limit location. rewrite exec_getSensorData. cbv zeta.
    destruct (o_query o _) as [result|e]; [|reflexivity].
    destruct (forallb wellTypedRow (rows result)); [|reflexivity].
    destruct (iterErr result); reflexivity.
  - intros id. rewrite exec_getSensorDataByID. cbv zeta.
    destruct (o_query o _) as [result|e]; [|reflexivity].
    destruct (rows result) as [|r rest]; [reflexivity |].
    destruct (wellTypedRow r); reflexivity.
  - intros id reqBody. reflexivity.
  - rewrite exec_healthCheck.
    destruct (o_health o) as [h|e]; [|reflexivity].
    destruct (String.eqb (HStatus h) "pass"); reflexivity.
Qed.

(** * The query text and its pipeline *)

Local Arguments String.append !_ _ /.

Lemma scanLiteral_plain (v rest : string) :
  plain v = true -> scanLiteral (v +:+ String "034"%char rest) = Some (v, rest).
Proof.
  induction v as [|c v IH]; intros Hv.
  - reflexivity.
  - cbn in Hv. apply andb_true_iff in Hv as [Hc Hv].
    cbn [String.append scanLiteral]. rewrite Hc.
    assert (Hq : Ascii.eqb c "034"%char = false).
    { unfold plainChar in Hc. destruct (Ascii.eqb c "034"%char);
        [discriminate Hc | reflexivity]. }
    rewrite Hq, (IH Hv). reflexivity.
Qed.

Lemma parseQuoted_plain (v rest : string) :
  plain v = true ->
  parseQuoted (String "034"%char (v +:+ String "034"%char (String ")"%char rest))) =
  Some (v, rest).
Proof.
  intros Hv. unfold parseQuoted. cbn [DQ strip_prefix].
  rewrite Ascii.eqb_refl, (scanLiteral_plain v _ Hv). reflexivity.
Qed.

Lemma scanWhile_stop (f : ascii -> bool) (taken : string) (c : ascii)
  (rest : string) :
  allChars f taken = true -> f c = false ->
  scanWhile f (taken +:+ String c rest) = (taken, String c rest).
Proof.
  intros Ht Hc. induction taken as [|x taken IH].
  - cbn. rewrite Hc. reflexivity.
  - cbn in Ht. apply andb_true_iff in Ht as [Hx Ht].
    cbn. rewrite Hx, (IH Ht). reflexivity.
Qed.

Lemma string_of_uint_digits (d : Decimal.uint) :
  allChars isDigit (NilEmpty.string_of_uint d) = true.
Proof. induction d; cbn; auto. Qed.

Lemma fmt_d_nonneg (n : Z) :
  0 <= n ->
  allChars isDigit (fmt_d n) = true /\
  fmt_d n <> EmptyString /\
  digits_value (fmt_d n) 0 = Some n.
Proof.
  intros Hn. destruct n as [|p|p]; [repeat split; discriminate | | lia].
  unfold fmt_d. cbn [Z.to_int NilZero.string_of_int].
  pose proof (DecimalPos.Unsigned.to_uint_nonnil p) as Hnil.
  pose proof (DecimalPos.Unsigned.of_to p) as Hof.
  assert (Hs : NilZero.string_of_uint (Pos.to_uint p) =
               NilEmpty.string_of_uint (Pos.to_uint p)).
  { destruct (Pos.to_uint p); [contradiction | reflexivity ..]. }
  rewrite Hs. split; [apply string_of_uint_digits |]. split.
  - destruct (Pos.to_uint p); [contradiction | discriminate ..].
  - rewrite digits_value_zero, Hof. reflexivity.
Qed.

Lemma parseNumber_fmt_d (n : Z) (c : ascii) (rest : string) :
  0 <= n -> isDigit c = false ->
  parseNumber (fmt_d n +:+ String c rest) = Some (n, String c rest).
Proof.
  intros Hn Hc. destruct (fmt_d_nonneg n Hn) as (Hd & Hne & Hv).
  unfold parseNumber. rewrite (scanWhile_stop isDigit _ c rest Hd Hc).
  rewrite Hv. destruct (fmt_d n); [contradiction | reflexivity].
Qed.

Lemma parseStage_print (st : Stage) (rest : string) :
  wfStage st = true -> parseStage (print_stage st +:+ rest) = Some (st, rest).
Proof.
  intros Hwf. destruct st as [b|d|column value| |n|].
  - cbn in Hwf. unfold print_stage. rewrite !append_assoc.
    unfold parseStage. cbn [DQ String.append strip_prefix Ascii.eqb Bool.eqb].
    rewrite (parseQuoted_plain b rest Hwf). reflexivity.
  - unfold print_stage. rewrite !append_assoc.
    unfold parseStage, parsePiped.
    cbn [DQ String.append strip_prefix Ascii.eqb Bool.eqb].
    unfold parseDuration.
    destruct d as [n|n]; cbn in Hwf; apply Z.leb_le in Hwf;
      unfold print_duration; rewrite !append_assoc;
      cbn [DQ String.append];
      rewrite (parseNumber_fmt_d n _ _ Hwf) by reflexivity; reflexivity.
  - cbn in Hwf. apply andb_true_iff in Hwf as [Hwf Hv].
    apply andb_true_iff in Hwf as [Hne Hid].
    unfold print_stage. rewrite !append_assoc.
    unfold parseStage, parsePiped.
    cbn [DQ String.append strip_prefix Ascii.eqb Bool.eqb].
    unfold parseFilter.
    rewrite (scanWhile_stop identChar column " " _ Hid) by reflexivity.
    destruct column as [|x column]; [discriminate Hne |].
    cbn [DQ String.append strip_prefix Ascii.eqb Bool.eqb].
    rewrite (parseQuoted_plain value rest Hv). reflexivity.
  - reflexivity.
  - cbn in Hwf. apply Z.leb_le in Hwf.
    unfold print_stage. rewrite !append_assoc.
    unfold parseStage, parsePiped.
    cbn [DQ String.append strip_prefix Ascii.eqb Bool.eqb].
    rewrite (parseNumber_fmt_d n _ _ Hwf) by reflexivity. reflexivity.
  - reflexivity.
Qed.

Lemma skipSpace_layout (ws s : string) :
  allChars isSpace ws = true -> skipSpace (ws +:+ s) = skipSpace s.
Proof.
  induction ws as [|c ws IH]; intros H; [reflexivity |].
  cbn in H. apply andb_true_iff in H as [Hc H].
  cbn [String.append skipSpace]. rewrite Hc. apply IH, H.
Qed.

Lemma skipSpace_idem (s : string) : skipSpace (skipSpace s) = skipSpace s.
Proof.
  induction s as [|c s IH]; [reflexivity |].
  cbn [skipSpace]. destruct (isSpace c) eqn:Hc; [exact IH |].
  cbn [skipSpace]. rewrite Hc. reflexivity.
Qed.

Lemma parseStages_skipSpace (fuel : nat) (s : string) :
  parseStages fuel (skipSpace s) = parseStages fuel s.
Proof.
  destruct fuel; cbn [parseStages]; rewrite skipSpace_idem; reflexivity.
Qed.

Lemma print_stage_head (st : Stage) :
  exists c s, print_stage st = String c s /\ isSpace c = false.
Proof.
  destruct st as [b|d|column value| |n|]; cbn [print_stage DQ String.append];
    eexists; eexists; (split; [reflexivity | reflexivity]).
Qed.

Lemma parseStages_print (ts : list Token) (fuel : nat) :
  forallb wfToken ts = true ->
  (length (stages_of ts) <= fuel)%nat ->
  parseStages fuel (print_flux ts) = Some (stages_of ts).
Proof.
  revert fuel. induction ts as [|t ts IH]; intros fuel Hwf Hfuel.
  - destruct fuel; reflexivity.
  - cbn [forallb] in Hwf. apply andb_true_iff in Hwf as [Ht Hwf].
    destruct t as [ws|st]; cbn [print_flux print_token stages_of] in *.
    + rewrite <- parseStages_skipSpace, (skipSpace_layout ws _ Ht),
        parseStages_skipSpace.
      apply IH; assumption.
    + destruct fuel as [|fuel]; [cbn in Hfuel; lia |].
      destruct (print_stage_head st) as (c & s & Hs & Hc).
      cbn [parseStages].
      assert (Hskip : skipSpace (print_stage st +:+ print_flux ts) =
                      print_stage st +:+ print_flux ts).
      { rewrite Hs. cbn [String.append skipSpace]. rewrite Hc. reflexivity. }
      rewrite Hskip.
      assert (Hne : exists c' s', print_stage st +:+ print_flux ts = String c' s').
      { rewrite Hs. cbn [String.append]. eauto. }
      destruct Hne as (c' & s' & Hne).
      rewrite Hne, <- Hne.
      rewrite (parseStage_print st _ Ht), IH; [reflexivity | assumption |].
      cbn in Hfuel. lia.
Qed.

Lemma print_stage_length (st : Stage) : (1 <= String.length (print_stage st))%nat.
Proof.
  destruct (print_stage_head st) as (c & s & Hs & _). rewrite Hs. cbn. lia.
Qed.

Lemma stages_within_length (ts : list Token) :
  (length (stages_of ts) <= String.length (print_flux ts))%nat.
Proof.
  induction ts as [|[ws|st] ts IH]; cbn [stages_of print_flux print_token length].
  - cbn. lia.
  - rewrite length_append. lia.
  - rewrite length_append. pose proof (print_stage_length st). lia.
Qed.

(** Reading back what was printed: on token lists of the dialect the text
    determines the stages. *)
Lemma parse_flux_print (ts : list Token) :
  forallb wfToken ts = true -> parse_flux (print_flux ts) = Some (stages_of ts).
Proof.
  intros Hwf. apply parseStages_print; [exact Hwf | apply stages_within_length].
Qed.

Lemma parse_getSensorDataByID_query (app : App) (id : string) :
  plain (bucket app) = true -> plain id = true ->
  parse_flux (getSensorDataByID_query app id) =
  Some [ SFrom (bucket app); SRange (Days 30);
         SFilter "_measurement" "sensor_readings"; SFilter "sensor_id" id;
         SPivot; SSortDesc; SLimit 1 ].
Proof.
  intros Hb Hid. rewrite <- getSensorDataByID_flux_text.
  rewrite parse_flux_print; [reflexivity |].
  cbn. rewrite Hb, Hid. reflexivity.
Qed.

Lemma parse_getSensorData_query (app : App) (location : string) (n : Z) :
  plain (bucket app) = true -> plain location = true -> 0 <= n ->
  parse_flux (getSensorData_query app location n) =
  Some (stages_of (getSensorData_flux app location n)).
Proof.
  intros Hb Hl Hn. rewrite <- getSensorData_flux_text.
  apply parse_flux_print. unfold getSensorData_flux.
  apply Z.leb_le in Hn.
  destruct (negb (String.eqb location EmptyString)); cbn;
    rewrite Hb, ?Hl, Hn; reflexivity.
Qed.

Arguments String.append : simpl never.

(** ** Rows of the gateway's own points *)

Lemma row_time (d : SensorData) : RecordTime (rowOf (sensorPoint d)) = Timestamp d.
Proof. destruct d. reflexivity. Qed.

Lemma row_sensor_id (id : string) (d : SensorData) :
  columnIs "sensor_id" id (rowOf (sensorPoint d)) = String.eqb (ID d) id.
Proof. destruct d. reflexivity. Qed.

Lemma row_measurement (d : SensorData) :
  columnIs "_measurement" "sensor_readings" (rowOf (sensorPoint d)) = true.
Proof. destruct d. reflexivity. Qed.

Lemma row_inRange (now : Time) (d : SensorData) :
  inRange now (Days 30) (rowOf (sensorPoint d)) = inWindow30 now (Timestamp d).
Proof. unfold inRange, inWindow30. rewrite row_time. reflexivity. Qed.

Lemma In_tableOf (s : Store) (r : FluxRecord) :
  In r (tableOf s) <-> exists p, In p (written s) /\ r = rowOf p.
Proof.
  unfold tableOf. rewrite <- in_rev, sortDesc_In, in_map_iff.
  split; intros (p & H1 & H2); exists p; [split; [exact H2 | symmetry; exact H1]
                                         | split; [symmetry; exact H2 | exact H1]].
Qed.

Lemma storeSource_own (b : string) (s : Store) : storeSource b s b = tableOf s.
Proof. unfold storeSource. rewrite String.eqb_refl. reflexivity. Qed.

(** A row of the store matches the by-id query exactly when it is the row
    of a reading of that id stamped in the window. *)
Lemma matchesByID_storeOf (app : App) (now : Time) (s : Store)
  (ds : list SensorData) (id : string) (r : FluxRecord) :
  written s = map sensorPoint ds ->
  (matchesByID now (storeSource (bucket app) s) app id r <->
   exists d, In d ds /\ r = rowOf (sensorPoint d) /\ ID d = id /\
             inWindow30 now (Timestamp d) = true).
Proof.
  intros Hw. unfold matchesByID. rewrite storeSource_own, In_tableOf, Hw. split.
  - intros ((p & Hp & ->) & Hr & _ & Hid).
    apply in_map_iff in Hp as (d & <- & Hd).
    exists d. rewrite row_inRange in Hr. rewrite row_sensor_id in Hid.
    apply String.eqb_eq in Hid. repeat split; assumption.
  - intros (d & Hd & -> & Hid & Hwin). split; [|split; [|split]].
    + exists (sensorPoint d). split; [apply in_map; exact Hd | reflexivity].
    + rewrite row_inRange. exact Hwin.
    + apply row_measurement.
    + rewrite row_sensor_id. apply String.eqb_eq. exact Hid.
Qed.

Lemma run_fluxWorld_getByID (app : App) (s : Store) (id : string) :
  plain (bucket app) = true -> plain id = true ->
  run (fluxWorld (bucket app)) (getSensorDataByID app id) s =
  match runFlux (clock s) (storeSource (bucket app) s) (byIDStages app id) with
  | [] => (Some (errorReply StatusNotFound "Sensor data not found"), s)
  | r :: _ =>
      if wellTypedRow r then
        (Some (successReply StatusOK "Data retrieved successfully"
                 (DataReading (readingOf r))), s)
      else (None, s)
  end.
Proof.
  intros Hb Hid. unfold getSensorDataByID.
  cbn [mbind Handler_bind hbind call run answer fluxWorld w_query].
  unfold fluxQuery, queryRows.
  rewrite (parse_getSensorDataByID_query app id Hb Hid).
  fold (byIDStages app id).
  destruct (runFlux _ _ (byIDStages app id)) as [|r rest]; [reflexivity |].
  cbn [rows hbind]. rewrite recordToSensorData_spec.
  destruct (wellTypedRow r); reflexivity.
Qed.

Lemma byIDStages_flux (app : App) (id : string) :
  stages_of (getSensorDataByID_flux app id) = byIDStages app id.
Proof. reflexivity. Qed.

(** In a store that evaluates the query it is sent and holds only points
    the gateway wrote, a fetch replies 404 exactly when no stored reading of
    that id is stamped within the 30 days before the fetch: a reading of the
    id stamped earlier, or at or after the instant of the fetch, does not
    count. *)
Theorem fetch_404_iff_no_point_in_window (app : App) (now : Time)
  (ds : list SensorData) (id : string) :
  plain (bucket app) = true -> plain id = true ->
  (fst (run (fluxWorld (bucket app)) (getSensorDataByID app id) (storeOf now ds)) =
     Some (errorReply StatusNotFound "Sensor data not found") <->
   forallb (fun d => negb (String.eqb (ID d) id && inWindow30 now (Timestamp d)))
     ds = true).
Proof.
  intros Hb Hid. rewrite (run_fluxWorld_getByID app _ id Hb Hid).
  cbn [storeOf clock].
  pose proof (byID_pipeline_latest now
                (storeSource (bucket app) (storeOf now ds)) app id) as H.
  rewrite byIDStages_flux in H.
  assert (Hm : forall r,
            matchesByID now (storeSource (bucket app) (storeOf now ds)) app id r <->
            exists d, In d ds /\ r = rowOf (sensorPoint d) /\ ID d = id /\
                      inWindow30 now (Timestamp d) = true).
  { intros r. apply matchesByID_storeOf. reflexivity. }
  destruct (runFlux now _ (byIDStages app id)) as [|r [|r' rest]];
    [| |destruct H].
  - split; [intros _ | reflexivity].
    apply forallb_forall. intros d Hd.
    destruct (String.eqb_spec (ID d) id) as [E|E]; [|reflexivity].
    destruct (inWindow30 now (Timestamp d)) eqn:Hwin; [|reflexivity].
    exfalso. apply (H (rowOf (sensorPoint d))). apply Hm.
    exists d. repeat split; assumption.
  - destruct H as [Hr _]. apply Hm in Hr as (d & Hd & -> & E & Hwin).
    rewrite rowOf_wellTyped. cbn [fst]. split; [intros Hf; discriminate Hf |].
    intros Hall. rewrite forallb_forall in Hall. specialize (Hall d Hd).
    rewrite Hwin in Hall. apply String.eqb_eq in E. rewrite E in Hall.
    discriminate Hall.
Qed.

Lemma fetch_404_iff_no_point_in_window_witness :
  fst (run (fluxWorld "sensor_data") (getSensorDataByID sampleApp "s1")
         (storeOf (mkTime 63902678400 0)
            [setID (setTimestamp sampleReading (mkTime 63900000000 0)) "s1"])) =
  Some (errorReply StatusNotFound "Sensor data not found").
Proof.
  apply (proj2 (fetch_404_iff_no_point_in_window sampleApp
                  (mkTime 63902678400 0)
                  [setID (setTimestamp sampleReading (mkTime 63900000000 0)) "s1"]
                  "s1" eq_refl eq_refl)).
  reflexivity.
Defined.

(** In a store that evaluates the query it is sent and holds only points
    the gateway wrote, an update under an id followed by a fetch of that id
    returns the reading the update stored, provided every reading already
    stored under the id is stamped earlier than the update and the fetch
    comes after the update's stamp and within 30 days of it. *)
Theorem update_then_fetch_returns_update_when_newest (app : App)
  (now later : Time) (ds : list SensorData) (id : string) (data : SensorData) :
  plain (bucket app) = true -> plain id = true ->
  forallb (fun d => negb (String.eqb (ID d) id) ||
                    (nanos (Timestamp d) <?
                     nanos (Timestamp (updatedReading now id data)))) ds = true ->
  inWindow30 later (Timestamp (updatedReading now id data)) = true ->
  let W := fluxWorld (bucket app) in
  fst (run W (getSensorDataByID app id)
         (setClock later
            (snd (run W (updateSensorData app id (Ok data)) (storeOf now ds))))) =
    Some (successReply StatusOK "Data retrieved successfully"
            (DataReading (updatedReading now id data))) /\
  Temperature (updatedReading now id data) = Temperature data /\
  Humidity (updatedReading now id data) = Humidity data /\
  Pressure (updatedReading now id data) = Pressure data /\
  Altitude (updatedReading now id data) = Altitude data.
Proof.
  intros Hb Hid Hold Hwin. cbv zeta.
  set (stored := updatedReading now id data) in *.
  assert (Hrun : snd (run (fluxWorld (bucket app))
                        (updateSensorData app id (Ok data)) (storeOf now ds)) =
                 mkStore now (sensorPoint stored :: map sensorPoint ds) []).
  { rewrite run_updateSensorData. unfold askClock, stored, updatedReading.
    cbn [fluxWorld w_now w_write storeOf clock written logged Timestamp setID].
    destruct (IsZero (Timestamp data)); reflexivity. }
  rewrite Hrun.
  split.
  - rewrite (run_fluxWorld_getByID app _ id Hb Hid).
    cbn [setClock clock written logged].
    set (s' := mkStore later (sensorPoint stored :: map sensorPoint ds) []).
    pose proof (byID_pipeline_latest later (storeSource (bucket app) s') app id)
      as H.
    rewrite byIDStages_flux in H.
    assert (Hm : forall r,
              matchesByID later (storeSource (bucket app) s') app id r <->
              exists d, In d (stored :: ds) /\ r = rowOf (sensorPoint d) /\
                        ID d = id /\ inWindow30 later (Timestamp d) = true).
    { intros r. apply matchesByID_storeOf. reflexivity. }
    assert (Hnew : matchesByID later (storeSource (bucket app) s') app id
                     (rowOf (sensorPoint stored))).
    { apply Hm. exists stored. split; [left; reflexivity |].
      split; [reflexivity |]. split; [apply updatedReading_ID | exact Hwin]. }
    destruct (runFlux later _ (byIDStages app id)) as [|r [|r' rest]];
      [exfalso; exact (H _ Hnew) | | destruct H].
    destruct H as [Hr Hmax]. specialize (Hmax _ Hnew).
    apply Hm in Hr as (d & Hd & -> & E & _).
    destruct Hd as [<-|Hd].
    + rewrite rowOf_wellTyped, readingOf_rowOf. reflexivity.
    + exfalso. rewrite forallb_forall in Hold. specialize (Hold d Hd).
      apply String.eqb_eq in E. rewrite E in Hold. cbn [negb orb] in Hold.
      apply Z.ltb_lt in Hold.
      unfold timeOf in Hmax. rewrite !row_time in Hmax. lia.
  - unfold stored, updatedReading. cbn [Timestamp setID].
    destruct (IsZero (Timestamp data)); repeat split; reflexivity.
Qed.

Lemma update_then_fetch_returns_update_when_newest_witness :
  let W := fluxWorld "sensor_data" in
  fst (run W (getSensorDataByID sampleApp "s1")
         (setClock (mkTime 63900000060 0)
            (snd (run W (updateSensorData sampleApp "s1" (Ok sampleReading))
                    (storeOf (mkTime 63900000000 5)
                       [setID (setTimestamp sampleReading (mkTime 63899990000 0))
                          "s1"]))))) =
  Some (successReply StatusOK "Data retrieved successfully"
          (DataReading (updatedReading (mkTime 63900000000 5) "s1" sampleReading))).
Proof.
  apply (update_then_fetch_returns_update_when_newest sampleApp
           (mkTime 63900000000 5) (mkTime 63900000060 0)
           [setID (setTimestamp sampleReading (mkTime 63899990000 0)) "s1"]
           "s1" sampleReading eq_refl eq_refl eq_refl eq_refl).
Defined.

(** ** The limit in the text *)

Lemma limitInt_range (limit : string) : 1 <= limitInt limit <= maxInt64.
Proof.
  rewrite limitInt_cases. destruct (Atoi limit) as [l|] eqn:H.
  - apply Atoi_range in H.
    destruct (Z.ltb_spec 0 l); unfold maxInt64 in *; lia.
  - unfold maxInt64. lia.
Qed.

(** The text of the list query ends with the limit stage, carrying the
    number as [%d] prints it, and then the sort stage. *)
Lemma getSensorData_query_tail (app : App) (location : string) (n : Z) :
  exists front,
    getSensorData_query app location n =
    front +:+
    (LINE +:+ "|> limit(n: " +:+ fmt_d n +:+ ")" +:+
     LINE +:+ "|> sort(columns: [" +:+ DQ +:+ "_time" +:+ DQ +:+ "], desc: true)" +:+
     CLOSE).
Proof.
  unfold getSensorData_query.
  destruct (negb (String.eqb location EmptyString)).
  - exists (LINE +:+ "from(bucket: " +:+ DQ +:+ bucket app +:+ DQ +:+ ")" +:+
            LINE +:+ "|> range(start: -24h)" +:+
            LINE +:+ "|> filter(fn: (r) => r._measurement == " +:+ DQ +:+
              "sensor_readings" +:+ DQ +:+ ")" +:+ CLOSE +:+
            "|> filter(fn: (r) => r.location == " +:+ DQ +:+ location +:+
              DQ +:+ ")" +:+
            LINE +:+ "|> pivot(rowKey:[" +:+ DQ +:+ "_time" +:+ DQ +:+
              "], columnKey: [" +:+ DQ +:+ "_field" +:+ DQ +:+
              "], valueColumn: " +:+ DQ +:+ "_value" +:+ DQ +:+ ")").
    rewrite ?append_assoc. reflexivity.
  - exists (LINE +:+ "from(bucket: " +:+ DQ +:+ bucket app +:+ DQ +:+ ")" +:+
            LINE +:+ "|> range(start: -24h)" +:+
            LINE +:+ "|> filter(fn: (r) => r._measurement == " +:+ DQ +:+
              "sensor_readings" +:+ DQ +:+ ")" +:+ CLOSE +:+
            LINE +:+ "|> pivot(rowKey:[" +:+ DQ +:+ "_time" +:+ DQ +:+
              "], columnKey: [" +:+ DQ +:+ "_field" +:+ DQ +:+
              "], valueColumn: " +:+ DQ +:+ "_value" +:+ DQ +:+ ")").
    rewrite ?append_assoc. reflexivity.
Qed.

(** C9. Whatever the [limit] query parameter is, the limit used in the list
    query is decided as follows: absent (the empty string), not accepted by
    Atoi, zero or negative give the default 100; a parameter Atoi reads as a
    positive integer is used as it is.  The text sent to the store ends with
    the stage [limit(n: N)], N being that limit in decimal, followed by the
    sort stage: it is the printed pipeline with [SLimit] of that limit, and
    for a bucket and location without double quote, backslash or dollar sign
    that is also what the text reads back as.  With a store that answers the
    query with well-typed rows and no error the response is a success,
    whatever the parameter was. *)
Theorem limit_defaults_to_100 (app : App) (limit location : string) :
  (limit = EmptyString -> limitInt limit = 100) /\
  (Atoi limit = None -> limitInt limit = 100) /\
  (forall l, Atoi limit = Some l -> l <= 0 -> limitInt limit = 100) /\
  (forall l, Atoi limit = Some l -> 0 < l -> limitInt limit = l) /\
  (forall o, exists rest,
      snd (exec o (getSensorData app limit location)) =
      EvQuery (getSensorData_query app location (limitInt limit)) :: rest) /\
  (forall o result,
      o_query o (getSensorData_query app location (limitInt limit)) = Ok result ->
      forallb wellTypedRow (rows result) = true ->
      iterErr result = None ->
      fst (exec o (getSensorData app limit location)) =
      Some (successReply StatusOK "Data retrieved successfully"
              (DataReadings (map readingOf (rows result))))) /\
  (exists front,
      getSensorData_query app location (limitInt limit) =
      front +:+
      (LINE +:+ "|> limit(n: " +:+ fmt_d (limitInt limit) +:+ ")" +:+
       LINE +:+ "|> sort(columns: [" +:+ DQ +:+ "_time" +:+ DQ +:+
         "], desc: true)" +:+
       CLOSE)) /\
  getSensorData_query app location (limitInt limit) =
    print_flux (getSensorData_flux app location (limitInt limit)) /\
  (exists front,
      stages_of (getSensorData_flux app location (limitInt limit)) =
      front ++ [SPivot; SLimit (limitInt limit); SSortDesc]) /\
  (plain (bucket app) = true -> plain location = true ->
   exists front,
     parse_flux (getSensorData_query app location (limitInt limit)) =
     Some (front ++ [SPivot; SLimit (limitInt limit); SSortDesc])).
Proof.
  split; [|split; [|split; [|split; [|split; [|split; [|split; [|split; [|split]]]]]]]].
  - intros ->. reflexivity.
  - intros H. rewrite limitInt_cases, H. reflexivity.
  - intros l H Hl. rewrite limitInt_cases, H.
    destruct (Z.ltb_spec 0 l); [lia | reflexivity].
  - intros l H Hl. rewrite limitInt_cases, H.
    destruct (Z.ltb_spec 0 l); [reflexivity | lia].
  - intros o. rewrite exec_getSensorData. cbv zeta.
    destruct (o_query o _) as [result|e]; [|eexists; reflexivity].
    destruct (forallb wellTypedRow (rows result)); [|eexists; reflexivity].
    destruct (iterErr result); eexists; reflexivity.
  - intros o result Hq Hrows Herr. rewrite exec_getSensorData. cbv zeta.
    rewrite Hq, Hrows, Herr. reflexivity.
  - apply getSensorData_query_tail.
  - symmetry. apply getSensorData_flux_text.
  - apply getSensorData_stages_tail.
  - intros Hb Hl. pose proof (limitInt_range limit) as Hr.
    rewrite (parse_getSensorData_query app location _ Hb Hl) by lia.
    destruct (getSensorData_stages_tail app location (limitInt limit))
      as [front Hf].
    exists front. rewrite Hf. reflexivity.
Qed.

(** Whatever the limit parameter is, the number written into the list
    query is between 1 and 2^63-1: the text the handler sends ends with
    [limit(n: N)] and the sort stage, N being the decimal form of a number
    in that range, which read back as a limit parameter selects the same
    limit; for a bucket and location without double quote, backslash or
    dollar sign the text reads back as a pipeline with that limit stage. *)
Theorem limit_in_query_is_positive_int64 (app : App) (limit location : string)
  (o : Oracle) :
  exists n front,
    1 <= n <= maxInt64 /\
    n = limitInt limit /\
    limitInt (fmt_d n) = n /\
    queriesOf (snd (exec o (getSensorData app limit location))) =
      [ front +:+
        (LINE +:+ "|> limit(n: " +:+ fmt_d n +:+ ")" +:+
         LINE +:+ "|> sort(columns: [" +:+ DQ +:+ "_time" +:+ DQ +:+
           "], desc: true)" +:+
         CLOSE) ] /\
    (plain (bucket app) = true -> plain location = true ->
     exists stages,
       parse_flux
         (front +:+
          (LINE +:+ "|> limit(n: " +:+ fmt_d n +:+ ")" +:+
           LINE +:+ "|> sort(columns: [" +:+ DQ +:+ "_time" +:+ DQ +:+
             "], desc: true)" +:+
           CLOSE)) =
       Some (stages ++ [SPivot; SLimit n; SSortDesc])).
Proof.
  pose proof (limitInt_range limit) as Hr.
  destruct (getSensorData_query_tail app location (limitInt limit))
    as [front Hfront].
  exists (limitInt limit), front.
  split; [exact Hr |]. split; [reflexivity |]. split.
  - rewrite (limitInt_cases (fmt_d _)), Atoi_fmt_d by (unfold minInt64; lia).
    destruct (Z.ltb_spec 0 (limitInt limit)); [reflexivity | lia].
  - split.
    + rewrite <- Hfront, exec_getSensorData. cbv zeta.
      destruct (o_query o _) as [result|e]; [|reflexivity].
      destruct (forallb wellTypedRow (rows result)); [|reflexivity].
      destruct (iterErr result); reflexivity.
    + intros Hb Hl. rewrite <- Hfront.
      rewrite (parse_getSensorData_query app location _ Hb Hl) by lia.
      destruct (getSensorData_stages_tail app location (limitInt limit))
        as [stages Hs].
      exists stages. rewrite Hs. reflexivity.
Qed.

(** ** What the queries return, read from the text *)

(** For a bucket and location without double quote, backslash or dollar
    sign, the list query as sent is a query of the dialect, and on any table
    it returns the first [limit] rows, in the store's order, among the rows
    of the last 24 hours of the measurement (and of the location, when one is
    given), sorted newest first: at most [limit] rows, each passing every
    filter. *)
Theorem list_query_returns_first_matches (now : Time)
  (source : string -> Table) (app : App) (limit location : string) :
  plain (bucket app) = true -> plain location = true ->
  let n := Z.to_nat (limitInt limit) in
  let inWindow :=
    List.filter (columnIs "_measurement" "sensor_readings")
      (List.filter (inRange now (Hours 24)) (source (bucket app))) in
  let matching :=
    if String.eqb location EmptyString then inWindow
    else List.filter (columnIs "location" location) inWindow in
  exists out,
    queryRows now source (getSensorData_query app location (limitInt limit)) =
      Some out /\
    (length out <= n)%nat /\
    descending out /\
    (forall r, In r out <-> In r (take n matching)) /\
    (forall r, In r out ->
       In r (source (bucket app)) /\
       inRange now (Hours 24) r = true /\
       columnIs "_measurement" "sensor_readings" r = true /\
       (location <> EmptyString -> columnIs "location" location r = true)).
Proof.
  intros Hb Hl. cbv zeta.
  pose proof (limitInt_range limit) as Hrange.
  unfold queryRows.
  rewrite (parse_getSensorData_query app location _ Hb Hl) by lia.
  eexists. split; [reflexivity |].
  assert (E : runFlux now source
                (stages_of (getSensorData_flux app location (limitInt limit))) =
              sortDesc (take (Z.to_nat (limitInt limit))
                (if String.eqb location EmptyString
                 then List.filter (columnIs "_measurement" "sensor_readings")
                        (List.filter (inRange now (Hours 24))
                           (source (bucket app)))
                 else List.filter (columnIs "location" location)
                        (List.filter (columnIs "_measurement" "sensor_readings")
                           (List.filter (inRange now (Hours 24))
                              (source (bucket app))))))).
  { unfold getSensorData_flux.
    destruct (String.eqb location EmptyString); reflexivity. }
  rewrite E.
  split; [rewrite sortDesc_length, length_take; lia |].
  split; [apply sortDesc_descending |].
  split; [intros r; apply sortDesc_In |].
  intros r Hr. apply sortDesc_In, In_take in Hr.
  destruct (String.eqb_spec location EmptyString) as [Hloc|Hloc].
  - apply filter_In in Hr as [Hr Hm]. apply filter_In in Hr as [Hr Hw].
    repeat split; try assumption. intros Hne. contradiction.
  - apply filter_In in Hr as [Hr Hlc]. apply filter_In in Hr as [Hr Hm].
    apply filter_In in Hr as [Hr Hw].
    repeat split; try assumption. intros _. assumption.
Qed.

Lemma list_query_returns_first_matches_witness :
  exists out,
    queryRows (mkTime 2000 0) (fun _ => sampleTable)
      (getSensorData_query sampleApp "lab" (limitInt "2")) = Some out /\
    (length out <= 2)%nat.
Proof.
  destruct (list_query_returns_first_matches (mkTime 2000 0)
              (fun _ => sampleTable) sampleApp "2" "lab" eq_refl eq_refl)
    as (out & Hq & Hlen & _).
  exists out. split; [exact Hq | exact Hlen].
Defined.

(** For a bucket and id without double quote, backslash or dollar sign, the
    by-id query as sent is a query of the dialect, and on any table a row
    it returns lies within the 30 days before the instant of the query and
    carries the requested sensor id: a point stamped at or after that
    instant, or more than 30 days before it, is never returned. *)
Theorem byID_query_window (now : Time) (source : string -> Table) (app : App)
  (id : string) :
  plain (bucket app) = true -> plain id = true ->
  exists out,
    queryRows now source (getSensorDataByID_query app id) = Some out /\
    (length out <= 1)%nat /\
    forall r, In r out ->
      nanos now - 30 * 86400 * 1000000000 <= timeOf r < nanos now /\
      columnIs "sensor_id" id r = true /\
      In r (source (bucket app)).
Proof.
  intros Hb Hid. unfold queryRows.
  rewrite (parse_getSensorDataByID_query app id Hb Hid).
  eexists. split; [reflexivity |].
  pose proof (byID_pipeline_latest now source app id) as H.
  rewrite byIDStages_flux in H. fold (byIDStages app id).
  destruct (runFlux now source (byIDStages app id)) as [|x [|y rest]];
    [split; [cbn; lia | intros r []] | | destruct H].
  split; [cbn; lia |].
  intros r [<-|[]]. destruct H as [(Hin & Hw & _ & Hsid) _].
  split; [|split; assumption].
  unfold inRange in Hw. apply andb_true_iff in Hw as [Hlo Hhi].
  apply Z.leb_le in Hlo. apply Z.ltb_lt in Hhi.
  unfold timeOf, durationNanos in *. lia.
Qed.

Lemma byID_query_window_witness :
  exists out,
    queryRows (mkTime 2000 0) (fun _ => sampleTable)
      (getSensorDataByID_query sampleApp "a") = Some out /\
    (length out <= 1)%nat.
Proof.
  destruct (byID_query_window (mkTime 2000 0) (fun _ => sampleTable) sampleApp
              "a" eq_refl eq_refl) as (out & Hq & Hlen & _).
  exists out. split; [exact Hq | exact Hlen].
Defined.

Lemma limit_defaults_to_100_witness :
  limitInt "25" = 25 /\ limitInt "abc" = 100 /\ limitInt "-4" = 100 /\
  limitInt EmptyString = 100.
Proof.
  split; [|split; [|split]].
  - apply (proj1 (proj2 (proj2 (proj2
      (limit_defaults_to_100 sampleApp "25" EmptyString)))) 25);
      [reflexivity | lia].
  - apply (proj1 (proj2 (limit_defaults_to_100 sampleApp "abc" EmptyString))).
    reflexivity.
  - apply (proj1 (proj2 (proj2
      (limit_defaults_to_100 sampleApp "-4" EmptyString))) (-4));
      [reflexivity | lia].
  - apply (proj1 (limit_defaults_to_100 sampleApp EmptyString EmptyString)).
    reflexivity.
Defined.

(** ** C4: fetching by id *)

(** C4, as the claim states it, fails.  With a first row that has no
    location column the Query call succeeds and returns a row, yet the
    handler gives no reply: neither NotFound, nor StorageError, nor a
    success response.  And for an id that holds a double quote the text
    sent is not the query filtered by that id: it reads as a pipeline with
    two other filters, and returns nothing from a table that holds a point of
    that very id inside the window. *)
Lemma getByID_success_needs_typed_row_and_plain_id :
  let o := mkOracle zeroTime (fun _ => None)
             (fun _ => Ok (mkQueryResult [rowWithoutLocation] None))
             (Ok (mkHealth "pass")) in
  (o_query o (getSensorDataByID_query sampleApp "a") =
     Ok (mkQueryResult [rowWithoutLocation] None) /\
   fst (exec o (getSensorDataByID sampleApp "a")) = None /\
   ~ (exists data,
        fst (exec o (getSensorDataByID sampleApp "a")) =
        Some (successReply StatusOK "Data retrieved successfully"
                (DataReading data)))) /\
  (pathID ("/api/v1/sensor-data/" +:+ quotedID) = Some quotedID /\
   parse_flux (getSensorDataByID_query sampleApp quotedID) =
     Some [ SFrom "sensor_data"; SRange (Days 30);
            SFilter "_measurement" "sensor_readings";
            SFilter "sensor_id" "a"; SFilter "sensor_id" "b";
            SPivot; SSortDesc; SLimit 1 ] /\
   queryRows (mkTime 2000 0) (fun _ => [sampleRow quotedID 1001])
     (getSensorDataByID_query sampleApp quotedID) = Some [] /\
   runFlux (mkTime 2000 0) (fun _ => [sampleRow quotedID 1001])
     (byIDStages sampleApp quotedID) = [sampleRow quotedID 1001]).
Proof.
  cbv zeta. split.
  - split; [reflexivity |]. split; [reflexivity |].
    intros [data H]. discriminate H.
  - split; [reflexivity |]. split; [vm_compute; reflexivity |].
    split; vm_compute; reflexivity.
Qed.

(** C4, amended.  Under any scripted answers, getSensorDataByID replies 404
    exactly when the Query call succeeds with no rows, replies 500 "Failed to
    query database" exactly when the Query call fails, and otherwise replies
    with the success envelope around the first row, provided that row has
    string sensor_id and location columns and measurements that are each nil
    or a float64; it gives no reply exactly when the first row is not of
    those types.  For a bucket and id without double quote, backslash or
    dollar sign, the text sent reads as the 30-day range query filtered by
    the id, sorted newest first and limited to one row, which on any table
    returns nothing when no row matches and otherwise exactly the newest
    matching row. *)
Theorem getByID_outcomes (app : App) (id : string) (o : Oracle) :
  let q := getSensorDataByID_query app id in
  let reply := fst (exec o (getSensorDataByID app id)) in
  (reply = Some (errorReply StatusNotFound "Sensor data not found") <->
   exists e, o_query o q = Ok (mkQueryResult [] e)) /\
  (reply = Some (errorReply StatusInternalServerError "Failed to query database") <->
   exists e, o_query o q = Err e) /\
  (forall record rest e,
      o_query o q = Ok (mkQueryResult (record :: rest) e) ->
      wellTypedRow record = true ->
      reply = Some (successReply StatusOK "Data retrieved successfully"
                      (DataReading (readingOf record)))) /\
  (reply = None <->
   exists record rest e,
     o_query o q = Ok (mkQueryResult (record :: rest) e) /\
     wellTypedRow record = false) /\
  snd (exec o (getSensorDataByID app id)) =
    EvQuery q :: match o_query o q with Err e => [EvLog e] | Ok _ => [] end /\
  q = print_flux (getSensorDataByID_flux app id) /\
  (plain (bucket app) = true -> plain id = true ->
   parse_flux q =
     Some [ SFrom (bucket app); SRange (Days 30);
            SFilter "_measurement" "sensor_readings"; SFilter "sensor_id" id;
            SPivot; SSortDesc; SLimit 1 ] /\
   forall now source,
     exists out,
       queryRows now source q = Some out /\
       match out with
       | [] => forall r, ~ matchesByID now source app id r
       | [r] =>
           matchesByID now source app id r /\
           forall r', matchesByID now source app id r' -> timeOf r' <= timeOf r
       | _ => False
       end).
Proof.
  cbv zeta. rewrite exec_getSensorDataByID. cbv zeta.
  split; [|split; [|split; [|split; [|split; [|split]]]]].
  - destruct (o_query o _) as [[rs err]|e]; cbn [rows fst].
    + destruct rs as [|record rest].
      * split; [intros _; exists err; reflexivity | reflexivity].
      * split; [|intros [e He]; discriminate He].
        destruct (wellTypedRow record); cbn [fst]; intros H; discriminate H.
    + split; [intros H; discriminate H | intros [e' He]; discriminate He].
  - destruct (o_query o _) as [[rs err]|e]; cbn [rows fst].
    + split; [|intros [e He]; discriminate He].
      destruct rs as [|record rest]; [intros H; discriminate H |].
      destruct (wellTypedRow record); cbn [fst]; intros H; discriminate H.
    + split; [intros _; exists e; reflexivity | reflexivity].
  - intros record rest e Hq Hr. rewrite Hq. cbn [rows]. rewrite Hr.
    reflexivity.
  - destruct (o_query o _) as [[rs err]|e]; cbn [rows fst].
    + destruct rs as [|record rest].
      * split; [intros H; discriminate H |].
        intros (r & rest & e & He & _). discriminate He.
      * destruct (wellTypedRow record) eqn:Hr; cbn [fst].
        -- split; [intros H; discriminate H |].
           intros (r & rest' & e & He & Hw). injection He as <- _ _.
           congruence.
        -- split; [|reflexivity].
           intros _. exists record, rest, err. split; [reflexivity | exact Hr].
    + split; [intros H; discriminate H |].
      intros (r & rest & e' & He & _). discriminate He.
  - destruct (o_query o _) as [[rs err]|e]; cbn [rows snd]; [|reflexivity].
    destruct rs as [|record rest]; [reflexivity |].
    destruct (wellTypedRow record); reflexivity.
  - symmetry. apply getSensorDataByID_flux_text.
  - intros Hb Hid.
    split; [apply parse_getSensorDataByID_query; assumption |].
    intros now source. unfold queryRows.
    rewrite (parse_getSensorDataByID_query app id Hb Hid).
    eexists. split; [reflexivity |].
    apply (byID_pipeline_latest now source app id).
Qed.

Lemma getByID_outcomes_witness :
  let o := mkOracle zeroTime (fun _ => None)
             (fun _ => Ok (mkQueryResult [sampleRow "a" 1001] None))
             (Ok (mkHealth "pass")) in
  fst (exec o (getSensorDataByID sampleApp "a")) =
  Some (successReply StatusOK "Data retrieved successfully"
          (DataReading (readingOf (sampleRow "a" 1001)))) /\
  parse_flux (getSensorDataByID_query sampleApp "a") =
  Some [ SFrom "sensor_data"; SRange (Days 30);
         SFilter "_measurement" "sensor_readings"; SFilter "sensor_id" "a";
         SPivot; SSortDesc; SLimit 1 ].
Proof.
  cbv zeta.
  pose proof (getByID_outcomes sampleApp "a"
                (mkOracle zeroTime (fun _ => None)
                   (fun _ => Ok (mkQueryResult [sampleRow "a" 1001] None))
                   (Ok (mkHealth "pass")))) as H.
  cbv zeta in H. destruct H as (_ & _ & Hok & _ & _ & _ & Hparse).
  split.
  - apply (Hok (sampleRow "a" 1001) [] None); reflexivity.
  - apply (proj1 (Hparse eq_refl eq_refl)).
Defined.
